(** * Gimbal-LLM-Control: command interpretation and motion control

    A shallow embedding of [src/core/gimbal_controller.py],
    [src/llm/llm_service.py] and the command dispatch of
    [src/gui/main_window.py], with the properties the specification states
    about them.

    Numbers.  The controller computes on Python numbers.  Its code is
    embedded once, over an interface [PyNum] of the arithmetic it uses, and
    the interface has two instances:
    - [Q], exact rational arithmetic, on which the general theorems are
      proved (rounding, infinities and NaN are outside this instance);
    - [float], the kernel's binary64 numbers, which are Python's [float],
      on which concrete runs are evaluated.

    Strings.  A Python [str] is embedded as a [string] whose characters
    are the code points 0..255.

    Effects.  A method of the controller is a function from the object to
    the object it leaves and the Qt signals it emits; code that may raise
    returns an [Exc].  Calls of the logger are left out. *)

From Stdlib Require Import ZArith QArith Qabs Qround Lia Lqa List Bool.
From Stdlib Require Import Ascii String DecimalString.
From Stdlib Require Import Floats.PrimFloat Floats.SpecFloat Floats.FloatOps.
Import ListNotations.

Set Implicit Arguments.

(* ================================================================== *)
(** * Python numbers *)
(* ================================================================== *)

Declare Scope py_scope.
Delimit Scope py_scope with py.

(** The comparison [<] of two numbers. *)
Class PyOrd (num : Type) : Type := {
  py_lt : num -> num -> bool
}.

(** The arithmetic of the controller: integer literals, [+ - * /], [abs]
    and the comparison. *)
Class PyNum (num : Type) : Type := {
  py_ord :: PyOrd num;
  of_int : Z -> num;
  py_add : num -> num -> num;
  py_sub : num -> num -> num;
  py_mul : num -> num -> num;
  py_div : num -> num -> num;
  py_abs : num -> num
}.

Infix "+" := py_add : py_scope.
Infix "-" := py_sub : py_scope.
Infix "*" := py_mul : py_scope.
Infix "/" := py_div : py_scope.
Infix "<?" := py_lt : py_scope.

(** Python's two-argument [max(a, b)] and [min(a, b)]: the first argument
    is kept unless the second is strictly greater (smaller). *)
Definition py_max {num} {ord : PyOrd num} (a b : num) : num :=
  if (a <? b)%py then b else a.

Definition py_min {num} {ord : PyOrd num} (a b : num) : num :=
  if (b <? a)%py then b else a.

(** Python's [int]. *)
#[export] Instance Z_PyOrd : PyOrd Z := {| py_lt := Z.ltb |}.

(** Exact rationals. *)
Definition Qltb (a b : Q) : bool := negb (Qle_bool b a).

#[export] Instance Q_PyOrd : PyOrd Q := {| py_lt := Qltb |}.

#[export] Instance Q_PyNum : PyNum Q := {|
  of_int := inject_Z;
  py_add := Qplus;
  py_sub := Qminus;
  py_mul := Qmult;
  py_div := Qdiv;
  py_abs := Qabs
|}.

(** Python's [float]: binary64, rounding to nearest even.  [float_of_Z]
    is the float nearest to an integer, as in an operation of an [int]
    with a [float]; an integer that rounds beyond the largest float gives
    an infinity here, and the code never converts one (see [py_float]). *)
Definition float_of_Z (z : Z) : float :=
  SF2Prim (binary_normalize prec emax z 0 false).


#[export] Instance float_PyOrd : PyOrd float := {| py_lt := PrimFloat.ltb |}.

#[export] Instance float_PyNum : PyNum float := {|
  of_int := float_of_Z;
  py_add := PrimFloat.add;
  py_sub := PrimFloat.sub;
  py_mul := PrimFloat.mul;
  py_div := PrimFloat.div;
  py_abs := PrimFloat.abs
|}.

(* ================================================================== *)
(** * core/gimbal_controller.py *)
(* ================================================================== *)

Module Controller.

Section Model.
Context {num : Type} {arith : PyNum num}.

(** The attributes of a [GimbalController] object. *)
Record GimbalController : Type := mkGimbal {
  pan : num;
  tilt : num;
  speed : Z;
  is_moving : bool;
  target_pan : num;
  target_tilt : num;
  status : string
}.

(** The dictionary [{'pan': .., 'tilt': .., 'speed': ..}]. *)
Record Position : Type := mkPosition {
  pos_pan : num;
  pos_tilt : num;
  pos_speed : Z
}.

(** Emissions of the two Qt signals of the class. *)
Inductive Signal : Type :=
| position_changed (p : Position)
| status_changed (s : string).

(** A method: it reads and writes the object and emits signals. *)
Definition M (A : Type) : Type :=
  GimbalController -> A * GimbalController * list Signal.

Definition ret {A} (a : A) : M A := fun self => (a, self, []).

Definition bind {A B} (m : M A) (k : A -> M B) : M B :=
  fun self =>
    let '(a, self1, out1) := m self in
    let '(b, self2, out2) := k a self1 in
    (b, self2, out1 ++ out2).

Definition get : M GimbalController := fun self => (self, self, []).

Definition put (self' : GimbalController) : M unit :=
  fun _ => (tt, self', []).

Definition emit (sig : Signal) : M unit := fun self => (tt, self, [sig]).

Definition run {A} (m : M A) (self : GimbalController)
  : GimbalController * list Signal :=
  let '(_, self', out) := m self in (self', out).

(** The object after a method call, and the signals the call emitted. *)
Definition exec {A} (m : M A) (self : GimbalController) : GimbalController :=
  fst (run m self).

Definition signals {A} (m : M A) (self : GimbalController) : list Signal :=
  snd (run m self).

End Model.

Arguments GimbalController num : clear implicits.
Arguments Position num : clear implicits.
Arguments Signal num : clear implicits.
Arguments M num A : clear implicits.

Declare Scope method_scope.
Delimit Scope method_scope with method.
Notation "x <- m ;; k" := (bind m (fun x => k))
  (at level 61, m at next level, right associativity) : method_scope.
Notation "m ;; k" := (bind m (fun _ => k))
  (at level 61, right associativity) : method_scope.

Section Methods.
Context {num : Type} {arith : PyNum num}.
Local Open Scope method_scope.
Local Open Scope string_scope.

(** Attribute assignments [self.x = v]. *)
Definition set_pan (v : num) : M num unit :=
  self <- get ;;
  put (mkGimbal v (tilt self) (speed self) (is_moving self)
                (target_pan self) (target_tilt self) (status self)).

Definition set_tilt (v : num) : M num unit :=
  self <- get ;;
  put (mkGimbal (pan self) v (speed self) (is_moving self)
                (target_pan self) (target_tilt self) (status self)).

Definition set_speed (v : Z) : M num unit :=
  self <- get ;;
  put (mkGimbal (pan self) (tilt self) v (is_moving self)
                (target_pan self) (target_tilt self) (status self)).

Definition set_is_moving (v : bool) : M num unit :=
  self <- get ;;
  put (mkGimbal (pan self) (tilt self) (speed self) v
                (target_pan self) (target_tilt self) (status self)).

Definition set_target_pan (v : num) : M num unit :=
  self <- get ;;
  put (mkGimbal (pan self) (tilt self) (speed self) (is_moving self)
                v (target_tilt self) (status self)).

Definition set_target_tilt (v : num) : M num unit :=
  self <- get ;;
  put (mkGimbal (pan self) (tilt self) (speed self) (is_moving self)
                (target_pan self) v (status self)).

(** [__init__]. *)
Definition init : GimbalController num :=
  {| pan := of_int 0; tilt := of_int 0; speed := 5;
     is_moving := false;
     target_pan := of_int 0; target_tilt := of_int 0;
     status := "Ready" |}.

Definition get_position : M num (Position num) :=
  self <- get ;;
  ret (mkPosition (pan self) (tilt self) (speed self)).

Definition pan_to (angle : num) (speed : Z) : M num unit :=
  set_target_pan (py_max (of_int (-180)) (py_min (of_int 180) angle)) ;;
  set_speed (py_max 1%Z (py_min 10%Z speed)) ;;
  set_is_moving true ;;
  emit (status_changed "Moving").

Definition tilt_to (angle : num) (speed : Z) : M num unit :=
  set_target_tilt (py_max (of_int (-90)) (py_min (of_int 90) angle)) ;;
  set_speed (py_max 1%Z (py_min 10%Z speed)) ;;
  set_is_moving true ;;
  emit (status_changed "Moving").

Definition move_to_home : M num unit :=
  pan_to (of_int 0) 5 ;;
  tilt_to (of_int 0) 5.

Definition stop : M num unit :=
  set_is_moving false ;;
  self <- get ;;
  set_target_pan (pan self) ;;
  self <- get ;;
  set_target_tilt (tilt self) ;;
  emit (status_changed "Ready").

(** The arrival threshold [0.1], as the float nearest to one tenth, and the
    divisor [100.0]. *)
Definition threshold : num := (of_int 1 / of_int 10)%py.
Definition hundred : num := of_int 100.

Definition update : M num unit :=
  self <- get ;;
  if negb (is_moving self) then ret tt
  else
    let pan_diff := (target_pan self - pan self)%py in
    let tilt_diff := (target_tilt self - tilt self)%py in
    (if (py_abs pan_diff <? threshold)%py && (py_abs tilt_diff <? threshold)%py
     then
       set_pan (target_pan self) ;;
       self <- get ;;
       set_tilt (target_tilt self) ;;
       set_is_moving false ;;
       emit (status_changed "Ready")
     else
       let move_speed := (of_int (speed self) / hundred)%py in
       self <- get ;;
       set_pan (pan self + pan_diff * move_speed)%py ;;
       self <- get ;;
       set_tilt (tilt self + tilt_diff * move_speed)%py) ;;
    pos <- get_position ;;
    emit (position_changed pos).

Definition cleanup : M num unit := stop.

(** [n] calls of [update] in a row (the timer of the main window). *)
Fixpoint ticks (n : nat) : M num unit :=
  match n with
  | O => ret tt
  | S n' => update ;; ticks n'
  end.

End Methods.

End Controller.

(* ================================================================== *)
(** * Sequences of operations on the controller *)
(* ================================================================== *)

Module Session.
Import Controller.

Section Ops.
Context {num : Type} {arith : PyNum num}.

(** The calls a session makes on the controller: [pan_to], [tilt_to],
    [move_to_home], [stop], and the timer's [update]. *)
Inductive Op : Type :=
| SetPanTarget (angle : num) (speed : Z)
| SetTiltTarget (angle : num) (speed : Z)
| GoHome
| Stop
| Tick.

Definition call (op : Op) : M num unit :=
  match op with
  | SetPanTarget a s => pan_to a s
  | SetTiltTarget a s => tilt_to a s
  | GoHome => move_to_home
  | Stop => stop
  | Tick => update
  end.

Inductive reachable : GimbalController num -> Prop :=
| reach_init : reachable init
| reach_call : forall self op,
    reachable self -> reachable (exec (call op) self).

(** What a listener of [status_changed] displays: the last status
    emitted, or what it displayed before when none was. *)
Fixpoint observed_status (shown : string) (out : list (Signal num)) : string :=
  match out with
  | [] => shown
  | status_changed s :: out' => observed_status s out'
  | position_changed _ :: out' => observed_status shown out'
  end.

End Ops.
End Session.

(* ================================================================== *)
(** * Python strings *)
(* ================================================================== *)

Module PyStr.
Local Open Scope string_scope.
Local Open Scope N_scope.

Definition code (c : ascii) : N := N_of_ascii c.

Definition in_range (lo hi : N) (c : ascii) : bool :=
  (lo <=? code c) && (code c <=? hi).

(** [str.lower] on one character: A-Z, and the upper-case letters of
    the Latin-1 block (U+00C0..U+00DE without the sign U+00D7). *)
Definition lower_char (c : ascii) : ascii :=
  if in_range 65 90 c || in_range 192 214 c || in_range 216 222 c
  then ascii_of_N (code c + 32)
  else c.

Fixpoint lower (s : string) : string :=
  match s with
  | EmptyString => EmptyString
  | String c s' => String (lower_char c) (lower s')
  end.

(** [str.isspace] on one character. *)
Definition is_space (c : ascii) : bool :=
  in_range 9 13 c || in_range 28 32 c
  || (code c =? 133) || (code c =? 160).

Fixpoint lstrip (s : string) : string :=
  match s with
  | EmptyString => EmptyString
  | String c s' => if is_space c then lstrip s' else s
  end.

Fixpoint rstrip (s : string) : string :=
  match s with
  | EmptyString => EmptyString
  | String c s' =>
      match rstrip s' with
      | EmptyString => if is_space c then EmptyString else String c EmptyString
      | r => String c r
      end
  end.

(** [s.strip()]. *)
Definition strip (s : string) : string := rstrip (lstrip s).

(** [s] begins with [sub]. *)
Fixpoint starts_with (sub s : string) : bool :=
  match sub with
  | EmptyString => true
  | String a sub' =>
      match s with
      | EmptyString => false
      | String b s' => Ascii.eqb a b && starts_with sub' s'
      end
  end.

(** [sub in s]: [sub] begins at some position of [s]. *)
Fixpoint contains (sub s : string) : bool :=
  match s with
  | EmptyString => starts_with sub EmptyString
  | String _ s' => starts_with sub s || contains sub s'
  end.

(** [any(word in s for word in words)]. *)
Definition any_in (words : list string) (s : string) : bool :=
  existsb (fun word => contains word s) words.

(** The class [\d] of a [str] pattern. *)
Definition is_digit (c : ascii) : bool := in_range 48 57 c.

(** [re.findall(r'\d+', s)]: the maximal runs of digits, from left to
    right.  [run] is the run being read, in reverse. *)
Fixpoint findall_digits_from (run : list ascii) (s : string) : list string :=
  match s with
  | EmptyString =>
      match run with
      | [] => []
      | _ => [string_of_list_ascii (rev run)]
      end
  | String c s' =>
      if is_digit c then findall_digits_from (c :: run) s'
      else
        match run with
        | [] => findall_digits_from [] s'
        | _ => string_of_list_ascii (rev run) :: findall_digits_from [] s'
        end
  end.

Definition findall_digits (s : string) : list string :=
  findall_digits_from [] s.

(** The number a run of digits denotes, which [int(s)] returns when it
    converts the run ([LLM.int_of_digit_run] is the call, with its
    limit). *)
Definition digit_value (c : ascii) : Z := Z.of_N (code c - 48).

Fixpoint int_of_digits_from (acc : Z) (s : string) : Z :=
  match s with
  | EmptyString => acc
  | String c s' => int_of_digits_from (10 * acc + digit_value c)%Z s'
  end.

Definition int_of_digits (s : string) : Z := int_of_digits_from 0%Z s.

(** [str(n)] of an integer. *)
Definition str_of_int (n : Z) : string :=
  NilZero.string_of_int (Z.to_int n).

(** The limit of CPython on the digits of a decimal string that [int]
    converts, [sys.get_int_max_str_digits()]; the application leaves it
    at its default.  Beyond it [int] raises a [ValueError] with this
    text. *)
Definition int_max_str_digits : nat := 4300.

Definition int_limit_error (digits : nat) : string :=
  "Exceeds the limit (4300 digits) for integer string conversion: value has "
  ++ str_of_int (Z.of_nat digits)
  ++ " digits; use sys.set_int_max_str_digits() to increase the limit".

(** [re.search(r'\{[^}]+\}', s)]: the text of the leftmost match.
    [until_close s] is the run of characters of [s] before its first
    closing brace, when there is one. *)
Definition open_brace : ascii := "{"%char.
Definition close_brace : ascii := "}"%char.

Fixpoint until_close (s : string) : option string :=
  match s with
  | EmptyString => None
  | String c s' =>
      if Ascii.eqb c close_brace then Some EmptyString
      else option_map (String c) (until_close s')
  end.

Fixpoint search_braces (s : string) : option string :=
  match s with
  | EmptyString => None
  | String c s' =>
      if Ascii.eqb c open_brace then
        match until_close s' with
        | Some (String b body) =>
            Some (String open_brace (String b body ++ String close_brace EmptyString))
        | _ => search_braces s'
        end
      else search_braces s'
  end.

(** The degree sign U+00B0 of the messages. *)
Definition degree_sign : string := String (ascii_of_N 176) EmptyString.

End PyStr.

(* ================================================================== *)
(** * Python values and exceptions *)
(* ================================================================== *)

(** The values [json.loads] builds, which are the values the fields of a
    command can hold.  A [dict] is listed by its items. *)
#[warnings="-register-all"]
Inductive pyval (num : Type) : Type :=
| PNone
| PBool (b : bool)
| PInt (z : Z)
| PFloat (f : num)
| PStr (s : string)
| PList (l : list (pyval num))
| PDict (items : list (string * pyval num)).

Arguments PNone {num}.
Arguments PBool {num} b.
Arguments PInt {num} z.
Arguments PStr {num} s.

(** The outcome of code that may raise; an exception [e] is kept as its
    text [str(e)]. *)
Inductive Exc (A : Type) : Type :=
| Raise (e : string)
| Return (a : A).

Arguments Raise {A} e.

Definition exc_bind {A B} (m : Exc A) (k : A -> Exc B) : Exc B :=
  match m with
  | Raise e => Raise e
  | Return a => k a
  end.

(** [try: body / except Exception as e: handler]. *)
Definition try_except {A} (body : Exc A) (handler : string -> A) : A :=
  match body with
  | Raise e => handler e
  | Return a => a
  end.

(** The same where the handler may raise as well. *)
Definition try_except_raising {A} (body : Exc A) (handler : string -> Exc A)
  : Exc A :=
  match body with
  | Raise e => handler e
  | Return a => Return a
  end.

Declare Scope exc_scope.
Delimit Scope exc_scope with exc.
Notation "x <- m ;; k" := (exc_bind m (fun x => k))
  (at level 61, m at next level, right associativity) : exc_scope.

(** The library functions the service calls and which are not part of the
    repository: [json.loads], the conversions [float(s)] and [int(s)] of a
    string, [int(f)] of a float, and the text [str(v)] of a value. *)
Class PyLib (num : Type) : Type := {
  json_loads : string -> Exc (pyval num);
  float_of_str : string -> Exc num;
  int_of_str : string -> Exc Z;
  int_of_float : num -> Exc Z;
  str_of : pyval num -> string
}.

(* ================================================================== *)
(** * llm/llm_service.py *)
(* ================================================================== *)

Module LLM.
Import PyStr.

Section Service.
Context {num : Type} {arith : PyNum num} {lib : PyLib num}.
Local Open Scope Z_scope.
Local Open Scope string_scope.

(** The dataclass [GimbalCommand].  No field is checked against its
    annotation when a command is built, so [action] and [message] hold
    whatever value they are given. *)
Record GimbalCommand : Type := mkCommand {
  action : pyval num;
  value : num;
  speed : Z;
  message : pyval num;
  success : bool;
  error : option string
}.

(** The defaults of the dataclass. *)
Definition default_value : num := of_int 0.
Definition default_speed : Z := 5.
Definition default_message : pyval num := PStr EmptyString.
Definition default_success : bool := true.
Definition default_error : option string := None.

(** [float(v)] and [int(v)].  An integer is converted unless it rounds
    beyond the largest float. *)
Definition float_overflow : Z := 2 ^ 1024 - 2 ^ 970.

Definition py_float (v : pyval num) : Exc num :=
  match v with
  | PInt z =>
      if (Z.abs z <? float_overflow)%Z then Return (of_int z)
      else Raise "int too large to convert to float"
  | PBool b => Return (of_int (if b then 1 else 0))
  | PFloat f => Return f
  | PStr s => float_of_str s
  | _ => Raise "float() argument must be a string or a real number"
  end.

Definition py_int (v : pyval num) : Exc Z :=
  match v with
  | PInt z => Return z
  | PBool b => Return (if b then 1 else 0)
  | PFloat f => int_of_float f
  | PStr s => int_of_str s
  | _ => Raise "int() argument must be a string, a bytes-like object or a real number"
  end.

(** [d.get(key, default)] on the items of a dict. *)
Fixpoint items_get (items : list (string * pyval num)) (key : string)
    (default : pyval num) : pyval num :=
  match items with
  | [] => default
  | (k, v) :: items' => if String.eqb k key then v else items_get items' key default
  end.

(** [data.get(key, default)]; only a dict has the method. *)
Definition data_get (data : pyval num) (key : string) (default : pyval num)
  : Exc (pyval num) :=
  match data with
  | PDict items => Return (items_get items key default)
  | _ => Raise "object has no attribute 'get'"
  end.

(** [int(s)] on a run of digits. *)
Definition int_of_digit_run (s : string) : Exc Z :=
  if (int_max_str_digits <? String.length s)%nat
  then Raise (int_limit_error (String.length s))
  else Return (int_of_digits s).

Definition _fallback_parsing (command : string) : Exc GimbalCommand :=
  let cmd := strip (lower command) in
  (* Home position *)
  if any_in ["home"; "center"] cmd then
    Return {| action := PStr "home";
              value := default_value;
              speed := default_speed;
              message := PStr "Moving to home position";
              success := default_success;
              error := default_error |}
  (* Stop *)
  else if any_in ["stop"; "halt"] cmd then
    Return {| action := PStr "stop";
              value := default_value;
              speed := default_speed;
              message := PStr "Stopping movement";
              success := default_success;
              error := default_error |}
  else
    (* Extract number *)
    let numbers := findall_digits cmd in
    (degrees <- match numbers with
                | first :: _ => int_of_digit_run first
                | [] => Return 30
                end ;;
     (* Pan commands *)
     if any_in ["pan"; "left"; "right"] cmd then
       let direction : Z := if contains "left" cmd then (-1) else 1 in
       Return {| action := PStr "pan";
                 value := of_int (direction * degrees);
                 speed := default_speed;
                 message := PStr ("Panning "
                                  ++ (if (direction <? 0)%Z then "left" else "right")
                                  ++ " " ++ str_of_int degrees ++ degree_sign);
                 success := default_success;
                 error := default_error |}
     (* Tilt commands *)
     else if any_in ["tilt"; "up"; "down"] cmd then
       let direction : Z := if contains "up" cmd then 1 else (-1) in
       Return {| action := PStr "tilt";
                 value := of_int (direction * degrees);
                 speed := default_speed;
                 message := PStr ("Tilting "
                                  ++ (if (direction >? 0)%Z then "up" else "down")
                                  ++ " " ++ str_of_int degrees ++ degree_sign);
                 success := default_success;
                 error := default_error |}
     else
       Return {| action := PStr "error";
                 value := default_value;
                 speed := default_speed;
                 message := PStr "Command not understood";
                 success := false;
                 error := default_error |})%exc.

(** An exception of [_fallback_parsing] in the handler leaves the method. *)
Definition _parse_llm_response (response original_command : string)
  : Exc GimbalCommand :=
  try_except_raising
    ((* Extract JSON from response *)
     match search_braces response with
     | None => Raise "No JSON found"
     | Some json_match =>
         (data <- json_loads json_match ;;
          action_ <- data_get data "action" (PStr "error") ;;
          value_ <- data_get data "value" (PInt 0) ;;
          value_ <- py_float value_ ;;
          speed_ <- data_get data "speed" (PInt 5) ;;
          speed_ <- py_int speed_ ;;
          shown <- data_get data "action" PNone ;;
          message_ <- data_get data "message"
                        (PStr ("Executing " ++ str_of shown ++ " command")) ;;
          Return {| action := action_;
                    value := value_;
                    speed := py_max 1 (py_min 10 speed_);
                    message := message_;
                    success := true;
                    error := default_error |})%exc
     end)
    (fun _ => _fallback_parsing original_command).

(** What the Ollama client does when [_process_with_ollama] runs: the
    module cannot be imported, the chat call (or the access to its
    reply) raises, or the reply carries a text. *)
Inductive Ollama : Type :=
| ImportFails (e : string)
| ChatFails (e : string)
| ChatReplies (content : string).

(** The import comes before the [try]; the call of [_parse_llm_response]
    is inside it, so what that call raises reaches the handler too. *)
Definition _process_with_ollama (backend : Ollama) (command : string)
  : Exc GimbalCommand :=
  match backend with
  | ImportFails e => Raise e
  | ChatFails e => _fallback_parsing command
  | ChatReplies content =>
      try_except_raising
        (let response_text := strip content in
         _parse_llm_response response_text command)
        (fun _ => _fallback_parsing command)
  end.

Definition process_command (ollama_available : bool) (backend : Ollama)
    (command : string) : GimbalCommand :=
  try_except
    (if ollama_available then _process_with_ollama backend command
     else _fallback_parsing command)
    (fun e =>
       {| action := PStr "error";
          value := default_value;
          speed := default_speed;
          message := PStr ("Error: " ++ e);
          success := false;
          error := Some e |}).

End Service.

Arguments GimbalCommand num : clear implicits.

End LLM.

(* ================================================================== *)
(** * gui/main_window.py: the dispatch of a command *)
(* ================================================================== *)

Module MainWindow.
Import Controller LLM.

Section Dispatch.
Context {num : Type} {arith : PyNum num}.
Local Open Scope string_scope.

(** [v == "text"]: true only of the string itself. *)
Definition eq_str (v : pyval num) (text : string) : bool :=
  match v with
  | PStr s => String.eqb s text
  | _ => false
  end.

Definition execute_gimbal_command (command : GimbalCommand num) : M num unit :=
  if eq_str (action command) "home" then move_to_home
  else if eq_str (action command) "stop" then stop
  else if eq_str (action command) "pan" then
    pan_to (value command) (LLM.speed command)
  else if eq_str (action command) "tilt" then
    tilt_to (value command) (LLM.speed command)
  else ret tt.

Definition update_display : M num unit := update.

End Dispatch.
End MainWindow.

(* ================================================================== *)
(** * The vocabulary of the specification *)
(* ================================================================== *)

Module Spec.
Import Controller LLM PyStr.

(** [clamp(a, lo, hi)]: [lo] below the interval, [hi] above it, [a] inside. *)
Definition clamp {num} {ord : PyOrd num} (a lo hi : num) : num :=
  if (a <? lo)%py then lo else if (hi <? a)%py then hi else a.

Section Motion.
Context {num : Type} {arith : PyNum num}.

(** Both remaining distances are below the arrival threshold. *)
Definition arrived (self : GimbalController num) : bool :=
  (py_abs (target_pan self - pan self) <? threshold)%py
  && (py_abs (target_tilt self - tilt self) <? threshold)%py.

(** A run of the timer, watched tick by tick, for a pan target at or
    above the position: each tick leaves pan at or above where it was and
    at or below the target, and within [fuel] ticks the controller is
    idle with pan on the target. *)
Fixpoint rises_to_target (fuel : nat) (self : GimbalController num) : bool :=
  match fuel with
  | O => false
  | S fuel' =>
      let self' := exec update self in
      negb (pan self' <? pan self)%py
      && negb (target_pan self <? pan self')%py
      && (if is_moving self' then rises_to_target fuel' self'
          else negb (pan self' <? target_pan self)%py)
  end.
End Motion.

(** [x] lies between [a] and [b], whichever of the two is the larger. *)
Definition between (a b x : Q) : Prop :=
  (a <= b -> a <= x <= b)%Q /\ (b <= a -> b <= x <= a)%Q.

Definition pan_distance (self : GimbalController Q) : Q :=
  Qabs (target_pan self - pan self).

Definition tilt_distance (self : GimbalController Q) : Q :=
  Qabs (target_tilt self - tilt self).

Definition in_limits (self : GimbalController Q) : Prop :=
  (-180 <= pan self <= 180)%Q /\ (-90 <= tilt self <= 90)%Q.

Definition targets_in_limits (self : GimbalController Q) : Prop :=
  (-180 <= target_pan self <= 180)%Q /\ (-90 <= target_tilt self <= 90)%Q.

Definition speed_in_range (self : GimbalController Q) : Prop :=
  (1 <= Controller.speed self <= 10)%Z.

(** What every operation of a session preserves. *)
Definition invariant (self : GimbalController Q) : Prop :=
  in_limits self /\ targets_in_limits self /\ speed_in_range self.


Local Open Scope string_scope.

(** [w] occurs in [t]. *)
Definition substring (w t : string) : Prop :=
  exists pre post, t = pre ++ w ++ post.

(** The digits a string begins with. *)
Fixpoint leading_digits (s : string) : string :=
  match s with
  | EmptyString => EmptyString
  | String c s' => if is_digit c then String c (leading_digits s') else EmptyString
  end.

(** The first run of decimal digits of a string, when it has a digit. *)
Fixpoint first_digit_run (s : string) : option string :=
  match s with
  | EmptyString => None
  | String c s' => if is_digit c then Some (leading_digits s) else first_digit_run s'
  end.

(** The number a decimal numeral denotes. *)
Fixpoint decimal_value (s : string) : Z :=
  match s with
  | EmptyString => 0
  | String c s' =>
      digit_value c * 10 ^ Z.of_nat (String.length s') + decimal_value s'
  end%Z.

(** The magnitude of a command text: its first run of decimal digits read
    as a number, or 30 when it has no digit. *)
Definition magnitude (t : string) : Z :=
  match first_digit_run t with
  | Some digits => decimal_value digits
  | None => 30
  end.

(** The number of digits of the first run of decimal digits, and whether
    it is beyond what [int] converts. *)
Definition first_run_length (t : string) : nat :=
  match first_digit_run t with
  | Some digits => String.length digits
  | None => 0
  end.

Definition over_int_limit (t : string) : bool :=
  (int_max_str_digits <? first_run_length t)%nat.



End Spec.

(* ================================================================== *)
(** * Sample replies of the backend *)
(* ================================================================== *)

Module Samples.
Import PyStr.
Local Open Scope string_scope.

Definition quote : string := String (ascii_of_N 34) EmptyString.



(** The reply [{"value": 10}]. *)
Definition reply_without_action : string :=
  "{" ++ quote ++ "value" ++ quote ++ ": 10}".

(** The reply [{"action": "error", "message": ""}]. *)
Definition reply_empty_message : string :=
  "{" ++ quote ++ "action" ++ quote ++ ": " ++ quote ++ "error" ++ quote ++ ", "
      ++ quote ++ "message" ++ quote ++ ": " ++ quote ++ quote ++ "}".

(** A library for closed examples.  It decodes the two replies above as
    [json.loads] does and rejects every other text; it converts no string
    to a number. *)
Definition sample_lib : PyLib Q := {|
  json_loads := fun s =>
    if String.eqb s reply_without_action then
      Return (PDict [("value", PInt 10)])
    else if String.eqb s reply_empty_message then
      Return (PDict [("action", PStr "error"); ("message", PStr EmptyString)])
    else Raise "Expecting value";
  float_of_str := fun _ => Raise "could not convert string to float";
  int_of_str := fun _ => Raise "invalid literal for int() with base 10";
  int_of_float := fun q => Return (if Qltb q 0 then Qceiling q else Qfloor q);
  str_of := fun v =>
    match v with
    | PNone => "None"
    | PBool true => "True"
    | PBool false => "False"
    | PInt z => if (z <? 0)%Z then "-" ++ str_of_int (- z) else str_of_int z
    | PStr s => s
    | _ => "..."
    end
|}.

End Samples.

Module FloatSamples.
Import Controller.



End FloatSamples.

(* ================================================================== *)
(** * core/config.py *)
(* ================================================================== *)

Module Config.

Section Settings.
Context {num : Type} {arith : PyNum num}.
Local Open Scope string_scope.

(** The dataclass [Config]. *)
Record Config : Type := mkConfig {
  llm_provider : string;
  ollama_url : string;
  ollama_model : string;
  ollama_enabled : bool;
  openai_api_key : option string;
  openai_model : string;
  gimbal_pan_limit : num;
  gimbal_tilt_limit : num;
  gimbal_default_speed : Z;
  graphics_fps_target : Z;
  graphics_vsync : bool;
  window_width : Z;
  window_height : Z;
  window_theme : string
}.

(** The environment of the process: [os.getenv(name)] is [env name]. *)
Definition Environ : Type := string -> option string.

(** [os.getenv(name, default)]. *)
Definition getenv_default (env : Environ) (name default : string) : string :=
  match env name with
  | Some v => v
  | None => default
  end.

(** The truth value of [os.getenv(name)]: set, and not the empty string. *)
Definition getenv_truthy (env : Environ) (name : string) : bool :=
  match env name with
  | Some (String _ _) => true
  | _ => false
  end.

(** The field defaults of the dataclass. *)
Definition defaults : Config :=
  {| llm_provider := "ollama";
     ollama_url := "http://localhost:11434";
     ollama_model := "llama3.2:1b";
     ollama_enabled := true;
     openai_api_key := None;
     openai_model := "gpt-3.5-turbo";
     gimbal_pan_limit := of_int 180;
     gimbal_tilt_limit := of_int 90;
     gimbal_default_speed := 5;
     graphics_fps_target := 60;
     graphics_vsync := true;
     window_width := 1400;
     window_height := 900;
     window_theme := "dark" |}.

Definition set_openai_api_key (v : option string) (self : Config) : Config :=
  mkConfig (llm_provider self) (ollama_url self) (ollama_model self)
           (ollama_enabled self) v (openai_model self)
           (gimbal_pan_limit self) (gimbal_tilt_limit self)
           (gimbal_default_speed self) (graphics_fps_target self)
           (graphics_vsync self) (window_width self) (window_height self)
           (window_theme self).

Definition set_ollama_url (v : string) (self : Config) : Config :=
  mkConfig (llm_provider self) v (ollama_model self)
           (ollama_enabled self) (openai_api_key self) (openai_model self)
           (gimbal_pan_limit self) (gimbal_tilt_limit self)
           (gimbal_default_speed self) (graphics_fps_target self)
           (graphics_vsync self) (window_width self) (window_height self)
           (window_theme self).

Definition set_llm_provider (v : string) (self : Config) : Config :=
  mkConfig v (ollama_url self) (ollama_model self)
           (ollama_enabled self) (openai_api_key self) (openai_model self)
           (gimbal_pan_limit self) (gimbal_tilt_limit self)
           (gimbal_default_speed self) (graphics_fps_target self)
           (graphics_vsync self) (window_width self) (window_height self)
           (window_theme self).

Definition __post_init__ (env : Environ) (self : Config) : Config :=
  let self := set_openai_api_key (env "OPENAI_API_KEY") self in
  let self := set_ollama_url (getenv_default env "OLLAMA_URL" (ollama_url self)) self in
  if getenv_truthy env "LLM_PROVIDER" then
    set_llm_provider (getenv_default env "LLM_PROVIDER" EmptyString) self
  else self.

(** [Config()], as [main.py] builds it. *)
Definition new (env : Environ) : Config := __post_init__ env defaults.

End Settings.

Arguments Config num : clear implicits.

End Config.

(* ================================================================== *)
(** * gui/: the panels, the renderer's state and the slots of the window *)
(* ================================================================== *)

(** What the widgets do and which is not part of the repository: the text
    of [format(x, '.1f')], and what [QLabel.setText] does with a value
    that is no [str] (the text it sets, or the exception it raises). *)
Class GuiLib (num : Type) : Type := {
  format_1f : num -> string;
  set_text_other : pyval num -> Exc string
}.

Module Gui.
Import PyStr Controller LLM MainWindow.

Section Widgets.
Context {num : Type} {arith : PyNum num} {lib : PyLib num} {gui : GuiLib num}.
Local Open Scope string_scope.

(** ** gui/control_panel.py *)

(** The response label of the control panel: its text and its colour. *)
Record ControlPanel : Type := mkControlPanel {
  response_label : string;
  response_color : string
}.

Definition green : string := "#4caf50".
Definition red : string := "#f44336".
Definition orange : string := "#ff9800".

(** [QLabel.setText(v)]. *)
Definition set_text (v : pyval num) : Exc string :=
  match v with
  | PStr s => Return s
  | _ => set_text_other v
  end.

Definition update_response (message : pyval num) (success : bool)
    (panel : ControlPanel) : Exc ControlPanel :=
  exc_bind (set_text message) (fun text =>
  let color := if success then green else red in
  Return {| response_label := text; response_color := color |}).

(** [update_response] with a message that is a [str]. *)
Definition update_response_str (message : string) (success : bool)
    (panel : ControlPanel) : ControlPanel :=
  let color := if success then green else red in
  {| response_label := message; response_color := color |}.

(** [send_llm_command], on the text of the input box: the panel it
    leaves and the command it emits with [llm_command_requested], if it
    emits. *)
Definition send_llm_command (text : string) (panel : ControlPanel)
  : ControlPanel * option string :=
  let command := strip text in
  match command with
  | EmptyString => (panel, None)
  | _ =>
      ({| response_label := "Processing...";
          response_color := response_color panel |},
       Some command)
  end.

(** The dictionary that [manual_command] emits. *)
Record ManualCommand : Type := mkManual {
  m_action : string;
  m_value : pyval num;
  m_speed : Z
}.

(** [manual_command(action, value)], with the value of the speed slider. *)
Definition manual_command (action : string) (value : pyval num) (slider : Z)
  : ManualCommand :=
  {| m_action := action; m_value := value; m_speed := slider |}.

(** What the four buttons pass to [manual_command]. *)
Inductive Button : Type := PanLeft | PanRight | TiltUp | TiltDown.

Definition button_command (b : Button) (slider : Z) : ManualCommand :=
  match b with
  | PanLeft => manual_command "pan" (PInt (-45)) slider
  | PanRight => manual_command "pan" (PInt 45) slider
  | TiltUp => manual_command "tilt" (PInt 30) slider
  | TiltDown => manual_command "tilt" (PInt (-30)) slider
  end.

(** ** gui/status_panel.py *)

Record StatusPanel : Type := mkStatusPanel {
  pan_label : string;
  tilt_label : string;
  speed_label : string;
  status_label : string;
  (** the colour [update_status] gives the label; none before *)
  status_color : option string
}.

Definition update_gimbal_position (position : Position num) (panel : StatusPanel)
  : StatusPanel :=
  {| pan_label := "Pan: " ++ format_1f (pos_pan position) ++ degree_sign;
     tilt_label := "Tilt: " ++ format_1f (pos_tilt position) ++ degree_sign;
     speed_label := "Speed: " ++ str_of_int (pos_speed position);
     status_label := status_label panel;
     status_color := status_color panel |}.

Definition update_status (status : string) (panel : StatusPanel) : StatusPanel :=
  let color :=
    if String.eqb status "Ready" then green
    else if String.eqb status "Moving" then orange
    else red in
  {| pan_label := pan_label panel;
     tilt_label := tilt_label panel;
     speed_label := speed_label panel;
     status_label := "Status: " ++ status;
     status_color := Some color |}.

(** ** graphics/renderer.py: the angles the renderer draws *)

Record GimbalRenderer : Type := mkRenderer {
  pan_angle : num;
  tilt_angle : num
}.

Definition renderer_update_gimbal_position (position : Position num)
    (r : GimbalRenderer) : GimbalRenderer :=
  {| pan_angle := pos_pan position; tilt_angle := pos_tilt position |}.

(** ** gui/main_window.py *)

(** The window: the controller and the three widgets it connects. *)
Record Window : Type := mkWindow {
  gimbal_controller : GimbalController num;
  control_panel : ControlPanel;
  status_panel : StatusPanel;
  renderer : GimbalRenderer
}.

Definition set_control_panel (panel : ControlPanel) (w : Window) : Window :=
  mkWindow (gimbal_controller w) panel (status_panel w) (renderer w).

(** The window when [MainWindow.__init__] returns. *)
Definition initial_window : Window :=
  {| gimbal_controller := init;
     control_panel := {| response_label := "Ready"; response_color := "#cccccc" |};
     status_panel :=
       {| pan_label := "Pan: 0" ++ degree_sign;
          tilt_label := "Tilt: 0" ++ degree_sign;
          speed_label := "Speed: 5";
          status_label := "Status: Ready";
          status_color := None |};
     renderer := {| pan_angle := of_int 0; tilt_angle := of_int 0 |} |}.

Definition on_position_changed (position : Position num) (w : Window) : Window :=
  mkWindow (gimbal_controller w) (control_panel w)
           (update_gimbal_position position (status_panel w))
           (renderer_update_gimbal_position position (renderer w)).

Definition on_status_changed (status : string) (w : Window) : Window :=
  mkWindow (gimbal_controller w) (control_panel w)
           (update_status status (status_panel w))
           (renderer w).

(** The slot that [setup_connections] connects to a signal. *)
Definition deliver (w : Window) (sig : Signal num) : Window :=
  match sig with
  | position_changed position => on_position_changed position w
  | status_changed status => on_status_changed status w
  end.

(** A method of the controller called from the window: the slots run at
    each emission, in the order of the emissions.  (No slot reads the
    controller, so they are run here on the signals the call returns.) *)
Definition dispatch {A} (m : M num A) (w : Window) : Window :=
  let '(self', out) := run m (gimbal_controller w) in
  fold_left deliver out
    (mkWindow self' (control_panel w) (status_panel w) (renderer w)).

(** The name of the type of a value, as an error message prints it. *)
Definition type_name (v : pyval num) : string :=
  match v with
  | PNone => "NoneType"
  | PBool _ => "bool"
  | PInt _ => "int"
  | PFloat _ => "float"
  | PStr _ => "str"
  | PList _ => "list"
  | PDict _ => "dict"
  end.

(** A value compared with an integer by [<]: the number it is, or the
    [TypeError] of the comparison. *)
Definition as_number (v : pyval num) : Exc num :=
  match v with
  | PInt z => Return (of_int z)
  | PBool b => Return (of_int (if b then 1 else 0))
  | PFloat f => Return f
  | _ => Raise ("'<' not supported between instances of '" ++ type_name v
                ++ "' and 'int'")
  end.

Definition process_llm_command (ollama_available : bool) (backend : Ollama)
    (command : string) (w : Window) : Window :=
  try_except
    ((* Process command *)
     let result := process_command ollama_available backend command in
     (* Update UI *)
     exc_bind (update_response (message result) (success result) (control_panel w))
       (fun panel =>
          let w := set_control_panel panel w in
          Return (if success result
                  then dispatch (execute_gimbal_command result) w
                  else w)))
    (fun e =>
       set_control_panel (update_response_str ("Error: " ++ e) false (control_panel w)) w).

Definition process_manual_command (command_data : ManualCommand) (w : Window)
  : Window :=
  try_except
    (let action := m_action command_data in
     let value := m_value command_data in
     let speed := m_speed command_data in
     exc_bind
       (if String.eqb action "pan" then
          exc_bind (as_number value) (fun angle =>
          Return (dispatch (pan_to angle speed) w))
        else if String.eqb action "tilt" then
          exc_bind (as_number value) (fun angle =>
          Return (dispatch (tilt_to angle speed) w))
        else Return w)
       (fun w =>
          let message := "Manual " ++ action ++ ": " ++ str_of value ++ degree_sign in
          Return (set_control_panel
                    (update_response_str message true (control_panel w)) w)))
    (fun e =>
       set_control_panel (update_response_str ("Error: " ++ e) false (control_panel w)) w).

Definition gimbal_home (w : Window) : Window :=
  let w := dispatch move_to_home w in
  set_control_panel (update_response_str "Moving to home" true (control_panel w)) w.

(** [update_display], the slot of the 16 ms timer. *)
Definition window_update_display (w : Window) : Window :=
  dispatch update_display w.

(** [closeEvent]: what it does to the controller. *)
Definition closeEvent (w : Window) : Window := dispatch cleanup w.

(** ** The events of a run of the application *)

Inductive Event : Type :=
| SendClicked (text : string) (ollama_available : bool) (backend : Ollama)
| ButtonClicked (b : Button) (slider : Z)
| HomeClicked
| TimerFired
| WindowClosed.

(** The Send button: [send_llm_command], whose signal is connected to
    [process_llm_command]. *)
Definition on_send (text : string) (ollama_available : bool) (backend : Ollama)
    (w : Window) : Window :=
  match send_llm_command text (control_panel w) with
  | (panel, Some command) =>
      process_llm_command ollama_available backend command
        (set_control_panel panel w)
  | (panel, None) => set_control_panel panel w
  end.

Definition handle (ev : Event) (w : Window) : Window :=
  match ev with
  | SendClicked text available backend => on_send text available backend w
  | ButtonClicked b slider => process_manual_command (button_command b slider) w
  | HomeClicked => gimbal_home w
  | TimerFired => window_update_display w
  | WindowClosed => closeEvent w
  end.

(** The windows a run reaches from the initial one. *)
Inductive app_reachable : Window -> Prop :=
| app_init : app_reachable initial_window
| app_event : forall w ev, app_reachable w -> app_reachable (handle ev w).

End Widgets.

Arguments Window num : clear implicits.
Arguments ControlPanel : clear implicits.
Arguments StatusPanel : clear implicits.
Arguments GimbalRenderer num : clear implicits.
Arguments ManualCommand num : clear implicits.

End Gui.

(* ================================================================== *)
(** * More vocabulary: rates, sessions, texts *)
(* ================================================================== *)

Module Terms.
Import PyStr Controller Session.

(** [q] to the power [n]. *)
Fixpoint qpow (q : Q) (n : nat) : Q :=
  match n with
  | O => 1
  | S n' => q * qpow q n'
  end.

(** The factor by which one advancing tick at speed [s] multiplies a
    remaining distance: [1 - s/100]. *)
Definition decay (s : Z) : Q := 1 - inject_Z s / 100.

Section Runs.
Context {num : Type} {arith : PyNum num}.

(** A session as one method: its calls in a row. *)
Fixpoint session (ops : list (Op (num := num))) : M num unit :=
  match ops with
  | [] => ret tt
  | op :: ops' => bind (call op) (fun _ => session ops')
  end.

End Runs.

(** A text that does not begin with white space. *)
Definition starts_kept (s : string) : Prop :=
  match s with
  | EmptyString => True
  | String c _ => is_space c = false
  end.

(** The items of a dict have no [key]: [get] returns the default. *)
Definition lacks {num} (items : list (string * pyval num)) (key : string) : Prop :=
  forall default, LLM.items_get items key default = default.

(** Every character of a text is white space. *)
Fixpoint all_space (s : string) : bool :=
  match s with
  | EmptyString => true
  | String c s' => is_space c && all_space s'
  end.

End Terms.

(* ================================================================== *)
(** * More sample replies, and runs of the window *)
(* ================================================================== *)

Module MoreSamples.
Import PyStr Samples.
Local Open Scope string_scope.

(** The reply [{"action": "home"}]. *)
Definition reply_home_only : string :=
  "{" ++ quote ++ "action" ++ quote ++ ": " ++ quote ++ "home" ++ quote ++ "}".

(** The reply [{"value": null}]. *)
Definition reply_null_value : string :=
  "{" ++ quote ++ "value" ++ quote ++ ": null}".

(** The reply [{"action": "pan", "value": 250.5, "speed": 12, "message": "ok"}]. *)
Definition reply_pan : string :=
  "{" ++ quote ++ "action" ++ quote ++ ": " ++ quote ++ "pan" ++ quote ++ ", "
      ++ quote ++ "value" ++ quote ++ ": 250.5, "
      ++ quote ++ "speed" ++ quote ++ ": 12, "
      ++ quote ++ "message" ++ quote ++ ": " ++ quote ++ "ok" ++ quote ++ "}".

(** A library that decodes these three replies as [json.loads] does and is
    [sample_lib] on every other text. *)
Definition more_lib : PyLib Q := {|
  json_loads := fun s =>
    if String.eqb s reply_home_only then
      Return (PDict [("action", PStr "home")])
    else if String.eqb s reply_null_value then
      Return (PDict [("value", PNone)])
    else if String.eqb s reply_pan then
      Return (PDict [("action", PStr "pan"); ("value", PFloat (501 # 2));
                     ("speed", PInt 12); ("message", PStr "ok")])
    else json_loads (PyLib := sample_lib) s;
  float_of_str := float_of_str (PyLib := sample_lib);
  int_of_str := int_of_str (PyLib := sample_lib);
  int_of_float := int_of_float (PyLib := sample_lib);
  str_of := str_of (PyLib := sample_lib)
|}.

(** Widgets for closed examples: one decimal is not worked out, and
    [setText] refuses what is no string. *)
Definition sample_gui : GuiLib Q := {|
  format_1f := fun _ => "?.?";
  set_text_other := fun _ => Raise "setText(self, a0: Optional[str]): argument 1 has unexpected type"
|}.

End MoreSamples.

Module Runs.
Import Controller Session Gui.
Local Open Scope string_scope.

Section Frames.
Context {num : Type} {arith : PyNum num} {lib : PyLib num} {gui : GuiLib num}.

(** The controller after a call is the controller before, or one
    operation of a session applied to it. *)
Definition one_call (before after : GimbalController num) : Prop :=
  after = before \/ exists op, after = exec (call op) before.

(** The display agrees with the controller: the renderer draws its pan
    and tilt, and the status label says whether it is moving, in orange
    when it is and in green (or in the colour it started with) when it is
    not. *)
Definition display_ok (w : Window num) : Prop :=
  let c := gimbal_controller w in
  pan_angle (renderer w) = pan c
  /\ tilt_angle (renderer w) = tilt c
  /\ status_label (status_panel w)
     = "Status: " ++ (if is_moving c then "Moving" else "Ready")
  /\ (status_color (status_panel w) = Some (if is_moving c then orange else green)
      \/ (status_color (status_panel w) = None /\ is_moving c = false)).

(** [n] firings of the 16 ms timer of the window. *)
Fixpoint frames (n : nat) (w : Window num) : Window num :=
  match n with
  | O => w
  | S n' => frames n' (handle TimerFired w)
  end.

End Frames.
End Runs.

Module WindowSamples.
Import PyStr Controller LLM Gui Samples MoreSamples.
Local Open Scope string_scope.

(** A click on a pan button, a tick, a text for the fallback parser, a
    tick. *)
Definition sample_window : Window Q :=
  handle (lib := more_lib) (gui := sample_gui) TimerFired
    (handle (lib := more_lib) (gui := sample_gui)
       (SendClicked " tilt up 20 " false (ChatFails EmptyString))
       (handle (lib := more_lib) (gui := sample_gui) TimerFired
          (handle (lib := more_lib) (gui := sample_gui) (ButtonClicked PanLeft 3)
             initial_window))).

End WindowSamples.
(* ================================================================== *)
(** * The controller, over any numbers *)
(* ================================================================== *)

Module ControllerFacts.
Import Controller Session Spec.

Section Generic.
Context {num : Type} {arith : PyNum num}.
Local Open Scope string_scope.
Local Open Scope method_scope.

(** ** What a method call leaves behind *)

Lemma run_bind {A B} (m : M num A) (k : A -> M num B) (self : GimbalController num) :
  run (bind m k) self =
    let '(a, self1, out1) := m self in
    let '(self2, out2) := run (k a) self1 in
    (self2, (out1 ++ out2)%list).
Proof.
  unfold run, bind. destruct (m self) as [[a self1] out1].
  destruct (k a self1) as [[b self2] out2]. reflexivity.
Qed.

Lemma exec_seq {A B} (m : M num A) (k : M num B) (self : GimbalController num) :
  exec (m ;; k) self = exec k (exec m self).
Proof.
  unfold exec. rewrite run_bind. unfold run.
  destruct (m self) as [[a self1] out1]. cbn.
  destruct (k self1) as [[b self2] out2]. reflexivity.
Qed.

Lemma exec_pan_to (angle : num) (s : Z) (self : GimbalController num) :
  exec (pan_to angle s) self =
    mkGimbal (pan self) (tilt self) (py_max 1%Z (py_min 10%Z s)) true
             (py_max (of_int (-180)) (py_min (of_int 180) angle))
             (target_tilt self) (status self).
Proof. reflexivity. Qed.

Lemma exec_tilt_to (angle : num) (s : Z) (self : GimbalController num) :
  exec (tilt_to angle s) self =
    mkGimbal (pan self) (tilt self) (py_max 1%Z (py_min 10%Z s)) true
             (target_pan self)
             (py_max (of_int (-90)) (py_min (of_int 90) angle))
             (status self).
Proof. reflexivity. Qed.

Lemma exec_move_to_home (self : GimbalController num) :
  exec move_to_home self =
    mkGimbal (pan self) (tilt self) (py_max 1%Z (py_min 10%Z 5%Z)) true
             (py_max (of_int (-180)) (py_min (of_int 180) (of_int 0)))
             (py_max (of_int (-90)) (py_min (of_int 90) (of_int 0)))
             (status self).
Proof. reflexivity. Qed.

Lemma run_stop (self : GimbalController num) :
  run stop self =
    (mkGimbal (pan self) (tilt self) (speed self) false
              (pan self) (tilt self) (status self),
     [status_changed "Ready"]).
Proof. reflexivity. Qed.

Lemma exec_stop (self : GimbalController num) :
  exec stop self =
    mkGimbal (pan self) (tilt self) (speed self) false
             (pan self) (tilt self) (status self).
Proof. reflexivity. Qed.

(** ** The three ways of [update] *)

Lemma run_update_idle (self : GimbalController num) :
  is_moving self = false -> run update self = (self, []).
Proof.
  intros Hidle. unfold run, update, bind, get. rewrite Hidle. reflexivity.
Qed.

Lemma run_update_arrive (self : GimbalController num) :
  is_moving self = true -> arrived self = true ->
  run update self =
    (mkGimbal (target_pan self) (target_tilt self) (speed self) false
              (target_pan self) (target_tilt self) (status self),
     [status_changed "Ready";
      position_changed
        (mkPosition (target_pan self) (target_tilt self) (speed self))]).
Proof.
  unfold arrived. intros Hmov Harr. unfold run, update, bind, get.
  rewrite Hmov. cbn [negb]. rewrite Harr. reflexivity.
Qed.

Lemma run_update_advance (self : GimbalController num) :
  is_moving self = true -> arrived self = false ->
  let move_speed := (of_int (speed self) / hundred)%py in
  let pan' := (pan self + (target_pan self - pan self) * move_speed)%py in
  let tilt' := (tilt self + (target_tilt self - tilt self) * move_speed)%py in
  run update self =
    (mkGimbal pan' tilt' (speed self) true
              (target_pan self) (target_tilt self) (status self),
     [position_changed (mkPosition pan' tilt' (speed self))]).
Proof.
  unfold arrived. destruct self as [p t sp mv tp tt st].
  cbn [is_moving pan tilt target_pan target_tilt speed status].
  intros Hmov Harr. subst mv. unfold run, update, bind, get.
  cbn [negb is_moving pan tilt target_pan target_tilt]. rewrite Harr.
  reflexivity.
Qed.

Lemma exec_update_cases (self : GimbalController num) :
  (is_moving self = false /\ exec update self = self)
  \/ (is_moving self = true /\ arrived self = true /\
      exec update self =
        mkGimbal (target_pan self) (target_tilt self) (speed self) false
                 (target_pan self) (target_tilt self) (status self))
  \/ (is_moving self = true /\ arrived self = false /\
      exec update self =
        mkGimbal (pan self + (target_pan self - pan self)
                              * (of_int (speed self) / hundred))%py
                 (tilt self + (target_tilt self - tilt self)
                               * (of_int (speed self) / hundred))%py
                 (speed self) true
                 (target_pan self) (target_tilt self) (status self)).
Proof.
  unfold exec.
  destruct (is_moving self) eqn:Hmov.
  - destruct (arrived self) eqn:Harr.
    + right; left. rewrite run_update_arrive by assumption. auto.
    + right; right. rewrite run_update_advance by assumption. auto.
  - left. rewrite run_update_idle by assumption. auto.
Qed.

(** [update] changes neither the targets nor the speed nor [status]. *)
Lemma update_keeps_targets (self : GimbalController num) :
  target_pan (exec update self) = target_pan self
  /\ target_tilt (exec update self) = target_tilt self
  /\ speed (exec update self) = speed self.
Proof.
  destruct (exec_update_cases self)
    as [[Hmov ->]|[(Hmov & Harr & ->)|(Hmov & Harr & ->)]]; cbn; auto.
Qed.

(** ** Runs of the timer *)

Lemma run_ticks_idle (n : nat) (self : GimbalController num) :
  is_moving self = false -> run (ticks n) self = (self, []).
Proof.
  intros Hidle. induction n as [|n IH].
  - reflexivity.
  - cbn [ticks]. rewrite run_bind.
    pose proof (run_update_idle self Hidle) as Hu. unfold run in Hu.
    destruct (update self) as [[u self1] out1].
    injection Hu as -> ->. rewrite IH. reflexivity.
Qed.

Lemma exec_ticks_idle (n : nat) (self : GimbalController num) :
  is_moving self = false -> exec (ticks n) self = self.
Proof.
  intros Hidle. unfold exec. rewrite run_ticks_idle by assumption. reflexivity.
Qed.

Lemma exec_ticks_0 (self : GimbalController num) : exec (ticks 0) self = self.
Proof. reflexivity. Qed.

Lemma exec_ticks_S (n : nat) (self : GimbalController num) :
  exec (ticks (S n)) self = exec (ticks n) (exec update self).
Proof. cbn [ticks]. apply exec_seq. Qed.

Lemma exec_ticks_snoc (n : nat) (self : GimbalController num) :
  exec (ticks (S n)) self = exec update (exec (ticks n) self).
Proof.
  revert self. induction n as [|n IH]; intros self.
  - rewrite exec_ticks_S, !exec_ticks_0. reflexivity.
  - rewrite exec_ticks_S, IH, <- exec_ticks_S. reflexivity.
Qed.

Lemma ticks_keep_targets (n : nat) (self : GimbalController num) :
  target_pan (exec (ticks n) self) = target_pan self
  /\ target_tilt (exec (ticks n) self) = target_tilt self
  /\ speed (exec (ticks n) self) = speed self.
Proof.
  induction n as [|n IH].
  - rewrite exec_ticks_0. auto.
  - rewrite exec_ticks_snoc.
    destruct (update_keeps_targets (exec (ticks n) self)) as (-> & -> & ->).
    exact IH.
Qed.

Lemma run_stop_then_ticks (n : nat) (self : GimbalController num) :
  run (stop ;; ticks n) self = (exec stop self, [status_changed "Ready"]).
Proof.
  rewrite run_bind.
  pose proof (run_stop self) as Hs. unfold run in Hs.
  destruct (stop self) as [[u self1] out1] eqn:E.
  injection Hs as Hs1 Hs2.
  assert (Hself1 : exec stop self = self1).
  { unfold exec, run. rewrite E. reflexivity. }
  rewrite Hself1. rewrite run_ticks_idle by (subst self1; reflexivity).
  subst out1. reflexivity.
Qed.

(** ** Invariants of a session *)

(** The attribute [status] is assigned by [__init__] alone. *)
Lemma status_always_ready (self : GimbalController num) :
  reachable self -> status self = "Ready".
Proof.
  induction 1 as [|self op Hreach IH].
  - reflexivity.
  - destruct op as [a s|a s| | |]; cbn [call]; try exact IH.
    destruct (exec_update_cases self)
      as [[Hmov ->]|[(Hmov & Harr & ->)|(Hmov & Harr & ->)]]; exact IH.
Qed.

(** C6.  In every state a session reaches from the initial one by
    [pan_to], [tilt_to], [move_to_home], [stop] and [update], an idle
    controller ([is_moving] false) has pan equal to its pan target and
    tilt equal to its tilt target.  This holds for any numbers. *)
Theorem idle_means_on_target (self : GimbalController num) :
  reachable self ->
  is_moving self = false ->
  pan self = target_pan self /\ tilt self = target_tilt self.
Proof.
  induction 1 as [|self op Hreach IH].
  - intros _. split; reflexivity.
  - destruct op as [a s|a s| | |]; cbn [call].
    + rewrite exec_pan_to. cbn. discriminate.
    + rewrite exec_tilt_to. cbn. discriminate.
    + rewrite exec_move_to_home. cbn. discriminate.
    + rewrite exec_stop. cbn. auto.
    + destruct (exec_update_cases self)
        as [[Hmov ->]|[(Hmov & Harr & ->)|(Hmov & Harr & ->)]]; cbn.
      * exact IH.
      * auto.
      * discriminate.
Qed.

(** C7.  On an idle controller [update] is a no-op: the object is left
    as it was (pan, tilt, both targets, speed and status) and no signal
    is emitted, so no position-changed notification either.  After
    [stop], any number of timer ticks leave the object as [stop] left it
    and emit nothing: pan and tilt are those before [stop], the last
    status a listener was told is Ready, and so is the attribute
    [status] in a session. *)
Theorem update_idle_is_noop (self : GimbalController num) :
  (is_moving self = false -> run update self = (self, []))
  /\ (forall n, run (ticks n) (exec stop self) = (exec stop self, []))
  /\ (forall n, pan (exec (stop ;; ticks n) self) = pan self
             /\ tilt (exec (stop ;; ticks n) self) = tilt self)
  /\ (forall n shown,
        observed_status shown (signals (stop ;; ticks n) self) = "Ready")
  /\ (forall n, reachable self ->
        status (exec (stop ;; ticks n) self) = "Ready").
Proof.
  split; [apply run_update_idle|].
  split; [intros n; apply run_ticks_idle; reflexivity|].
  split; [intros n; split; unfold exec at 1; rewrite run_stop_then_ticks;
          reflexivity|].
  split; [intros n shown; unfold signals; rewrite run_stop_then_ticks;
          reflexivity|].
  intros n Hreach. unfold exec at 1. rewrite run_stop_then_ticks.
  cbn [fst]. rewrite exec_stop. cbn [status].
  apply status_always_ready. exact Hreach.
Qed.
End Generic.

(** A session that ends idle: a pan target is set and motion is stopped. *)
Lemma idle_means_on_target_witness :
  let self := exec stop (exec (pan_to (num := Q) 10 5) init) in
  reachable self /\ is_moving self = false
  /\ pan self = target_pan self /\ tilt self = target_tilt self.
Proof.
  intros self.
  assert (Hreach : reachable self)
    by exact (reach_call Stop (reach_call (SetPanTarget 10%Q 5) reach_init)).
  split; [exact Hreach|]. split; [reflexivity|].
  apply (idle_means_on_target (num := Q) (self := self)).
  - exact Hreach.
  - reflexivity.
Defined.

End ControllerFacts.

(* ================================================================== *)
(** * The controller, over exact rationals *)
(* ================================================================== *)

Module RationalFacts.
Import Controller Session Spec ControllerFacts.
Local Open Scope Q_scope.

Lemma Qltb_spec (a b : Q) : reflect (a < b) (Qltb a b).
Proof.
  unfold Qltb. destruct (Qle_bool b a) eqn:E; constructor.
  - apply Qle_bool_iff in E. intros Hlt. lra.
  - destruct (Qlt_le_dec a b) as [Hab|Hba]; [exact Hab|].
    apply Qle_bool_iff in Hba. congruence.
Qed.

Lemma Qltb_iff (a b : Q) : Qltb a b = true <-> a < b.
Proof.
  destruct (Qltb_spec a b); split; intros; try assumption; try reflexivity;
    try discriminate; contradiction.
Qed.

Ltac decide_lt :=
  repeat match goal with
         | |- context [Qltb ?x ?y] => destruct (Qltb_spec x y)
         | |- context [Z.ltb ?x ?y] => destruct (Z.ltb_spec x y)
         end.

Ltac by_evaluation := apply Qle_bool_iff; reflexivity.

(** ** Clamping *)

Lemma py_clamp_Q (lo hi a : Q) :
  lo <= hi -> py_max lo (py_min hi a) == clamp a lo hi.
Proof.
  intros Hle. unfold py_max, py_min, clamp. cbn [py_lt Q_PyOrd].
  destruct (Qltb_spec a hi); decide_lt; lra.
Qed.

Lemma py_clamp_Z (lo hi s : Z) :
  (lo <= hi)%Z -> py_max lo (py_min hi s) = clamp s lo hi.
Proof.
  intros Hle. unfold py_max, py_min, clamp. cbn [py_lt Z_PyOrd].
  destruct (Z.ltb_spec s hi); decide_lt; lia.
Qed.

Lemma py_clamp_bounds (lo hi a : Q) :
  lo <= hi -> lo <= py_max lo (py_min hi a) <= hi.
Proof.
  intros Hle. unfold py_max, py_min. cbn [py_lt Q_PyOrd].
  destruct (Qltb_spec a hi); decide_lt; lra.
Qed.

Lemma py_clamp_bounds_Z (lo hi s : Z) :
  (lo <= hi)%Z -> (lo <= py_max lo (py_min hi s) <= hi)%Z.
Proof.
  intros Hle. unfold py_max, py_min. cbn [py_lt Z_PyOrd].
  destruct (Z.ltb_spec s hi); decide_lt; lia.
Qed.

(** C2.  For every angle [a] and speed [s], [pan_to a s] stores as pan
    target the clamp of [a] to [-180, 180], [tilt_to a s] stores as tilt
    target the clamp of [a] to [-90, 90], and both store as speed the clamp
    of [s] to [1, 10], whatever the sign and size of [a] and [s].  Angles
    are compared as numbers ([==] on [Q]). *)
Theorem targets_are_clamped (self : GimbalController Q) (a : Q) (s : Z) :
  target_pan (exec (pan_to a s) self) == clamp a (-180) 180
  /\ speed (exec (pan_to a s) self) = clamp s 1%Z 10%Z
  /\ target_tilt (exec (tilt_to a s) self) == clamp a (-90) 90
  /\ speed (exec (tilt_to a s) self) = clamp s 1%Z 10%Z.
Proof.
  rewrite exec_pan_to, exec_tilt_to. cbn [target_pan target_tilt speed].
  repeat split.
  - apply (@py_clamp_Q (-180) 180). by_evaluation.
  - apply py_clamp_Z. lia.
  - apply (@py_clamp_Q (-90) 90). by_evaluation.
  - apply py_clamp_Z. lia.
Qed.

(** ** One step of the approach *)

(** The fraction [speed / 100.0] of the remaining distance. *)
Lemma move_speed_range (s : Z) :
  (1 <= s <= 10)%Z -> 1 # 100 <= inject_Z s / 100 <= 1 # 10.
Proof.
  intros [Hlo Hhi].
  assert (H1 : inject_Z 1 <= inject_Z s) by (rewrite <- Zle_Qle; exact Hlo).
  assert (H2 : inject_Z s <= inject_Z 10) by (rewrite <- Zle_Qle; exact Hhi).
  change (inject_Z 1) with 1 in H1. change (inject_Z 10) with 10 in H2.
  split.
  - apply Qle_shift_div_l; lra.
  - apply Qle_shift_div_r; lra.
Qed.

(** A step towards the target lands between the position and the target. *)
Lemma step_between (p t k : Q) :
  0 <= k <= 1 -> between p t (p + (t - p) * k).
Proof.
  intros [Hk0 Hk1]. split; intros Hpt.
  - assert (0 <= (t - p) * k) by (apply Qmult_le_0_compat; lra).
    assert (0 <= (t - p) * (1 - k)) by (apply Qmult_le_0_compat; lra).
    split; lra.
  - assert (0 <= (p - t) * k) by (apply Qmult_le_0_compat; lra).
    assert (0 <= (p - t) * (1 - k)) by (apply Qmult_le_0_compat; lra).
    split; lra.
Qed.

Lemma step_in_interval (lo hi p t k : Q) :
  0 <= k <= 1 -> lo <= p <= hi -> lo <= t <= hi ->
  lo <= p + (t - p) * k <= hi.
Proof.
  intros Hk Hp Ht. destruct (step_between p t Hk) as [Hup Hdown].
  destruct (Qlt_le_dec t p) as [Hlt|Hle].
  - assert (t <= p) as Htp by lra. specialize (Hdown Htp). lra.
  - specialize (Hup Hle). lra.
Qed.

(** ** The position stays within the limits *)

Lemma invariant_init : invariant init.
Proof.
  unfold invariant, in_limits, targets_in_limits, speed_in_range. cbn.
  repeat split; try lia; by_evaluation.
Qed.

Lemma invariant_call (op : Op) (self : GimbalController Q) :
  invariant self -> invariant (exec (call op) self).
Proof.
  unfold invariant, in_limits, targets_in_limits, speed_in_range.
  intros ((Hp & Ht) & (Htp & Htt) & Hs).
  assert (H180 : -180 <= 180) by by_evaluation.
  assert (H90 : -90 <= 90) by by_evaluation.
  destruct op as [a s|a s| | |]; cbn [call].
  - rewrite exec_pan_to. cbn [pan tilt target_pan target_tilt speed].
    pose proof (py_clamp_bounds a H180). pose proof (@py_clamp_bounds_Z 1 10 s).
    repeat split; try tauto; lia.
  - rewrite exec_tilt_to. cbn [pan tilt target_pan target_tilt speed].
    pose proof (py_clamp_bounds a H90). pose proof (@py_clamp_bounds_Z 1 10 s).
    repeat split; try tauto; lia.
  - rewrite exec_move_to_home. cbn [pan tilt target_pan target_tilt speed].
    pose proof (py_clamp_bounds 0 H180). pose proof (py_clamp_bounds 0 H90).
    pose proof (@py_clamp_bounds_Z 1 10 5).
    repeat split; try tauto; lia.
  - rewrite exec_stop. cbn [pan tilt target_pan target_tilt speed]. tauto.
  - destruct (exec_update_cases self)
      as [[Hmov ->]|[(Hmov & Harr & ->)|(Hmov & Harr & ->)]];
      cbn [pan tilt target_pan target_tilt speed]; try tauto.
    pose proof (move_speed_range Hs) as Hk.
    assert (Hk01 : 0 <= inject_Z (speed self) / 100 <= 1) by lra.
    pose proof (step_in_interval Hk01 Hp Htp).
    pose proof (step_in_interval Hk01 Ht Htt).
    cbn. tauto.
Qed.

Lemma reachable_invariant (self : GimbalController Q) :
  reachable self -> invariant self.
Proof.
  induction 1 as [|self op Hreach IH].
  - apply invariant_init.
  - apply invariant_call. exact IH.
Qed.

(** C5.  In every state a session reaches from the initial one (pan 0,
    tilt 0) by any sequence of [pan_to], [tilt_to], [move_to_home], [stop]
    and [update], with any angles and speeds, pan is in [-180, 180] and
    tilt is in [-90, 90]. *)
Theorem position_within_limits (self : GimbalController Q) :
  reachable self ->
  (-180 <= pan self <= 180) /\ (-90 <= tilt self <= 90).
Proof.
  intros Hreach. apply reachable_invariant in Hreach. apply Hreach.
Qed.

(** A session that asks for angles beyond both limits and lets the timer
    run twice. *)
Lemma position_within_limits_witness :
  let self :=
    exec (ticks 2) (exec (tilt_to (-400) 0) (exec (pan_to 500 99) init)) in
  reachable self
  /\ (-180 <= pan self <= 180) /\ (-90 <= tilt self <= 90).
Proof.
  intros self.
  assert (Hreach : reachable self).
  { unfold self. rewrite exec_ticks_snoc, exec_ticks_snoc, exec_ticks_0.
    exact (reach_call Tick (reach_call Tick
            (reach_call (SetTiltTarget (-400) 0)
              (reach_call (SetPanTarget 500 99) reach_init)))). }
  split; [exact Hreach|].
  apply (position_within_limits Hreach).
Defined.

End RationalFacts.

(* ================================================================== *)
(** * The approach to the target *)
(* ================================================================== *)

Module Convergence.
Import Controller Session Spec ControllerFacts RationalFacts.
Local Open Scope Q_scope.

Lemma threshold_Q : threshold (num := Q) == 1 # 10.
Proof. reflexivity. Qed.

Lemma arrived_spec (self : GimbalController Q) :
  arrived self = true <->
  pan_distance self < 1 # 10 /\ tilt_distance self < 1 # 10.
Proof.
  unfold arrived, pan_distance, tilt_distance.
  rewrite andb_true_iff. cbn [py_lt py_ord py_abs py_sub Q_PyNum Q_PyOrd].
  rewrite !Qltb_iff, !threshold_Q. reflexivity.
Qed.

Lemma not_arrived_spec (self : GimbalController Q) :
  arrived self = false <->
  1 # 10 <= pan_distance self \/ 1 # 10 <= tilt_distance self.
Proof.
  split.
  - intros Hna.
    destruct (Qlt_le_dec (pan_distance self) (1 # 10)) as [Hp|Hp]; [|left; exact Hp].
    destruct (Qlt_le_dec (tilt_distance self) (1 # 10)) as [Ht|Ht]; [|right; exact Ht].
    assert (arrived self = true) by (apply arrived_spec; split; assumption).
    congruence.
  - intros Hfar. destruct (arrived self) eqn:Harr; [|reflexivity].
    apply arrived_spec in Harr. lra.
Qed.

(** ** Monotone, without overshoot *)


(** ** Arrival within a number of ticks *)





(** An advancing step multiplies a distance by [1 - speed/100]. *)
Lemma step_distance (p t k : Q) :
  0 <= k <= 1 ->
  Qabs (t - (p + (t - p) * k)) == Qabs (t - p) * (1 - k).
Proof.
  intros Hk.
  assert (E : t - (p + (t - p) * k) == (t - p) * (1 - k)) by ring.
  rewrite E, Qabs_Qmult. rewrite (Qabs_pos (1 - k)) by lra. reflexivity.
Qed.









End Convergence.

(* ================================================================== *)
(** * The controller, over binary64 numbers *)
(* ================================================================== *)

Module Binary64.
Import Controller Session Spec FloatSamples.

(** With Python's own arithmetic, one [update] from pan 0 towards 100 at
    speed 5 gives the float 5.0. *)
Lemma first_tick_binary64 :
  pan (exec update (exec (pan_to (of_int 100) 5) (init (num := float))))
  = of_int 5.
Proof. vm_compute. reflexivity. Qed.

(** With Python's own arithmetic, at every speed from 1 to 10, the run
    from pan 0 towards 100 never goes back, never passes 100, and ends
    idle on 100 within 1000 ticks. *)
Lemma approach_binary64 :
  forallb
    (fun s => rises_to_target 1000 (exec (pan_to (of_int 100) s) (init (num := float))))
    [1; 2; 3; 4; 5; 6; 7; 8; 9; 10]%Z
  = true.
Proof. vm_compute. reflexivity. Qed.


(** A pan target that is not a number is stored as 180: [min(180, nan)]
    keeps its first argument. *)
Lemma pan_to_nan_binary64 :
  target_pan (exec (pan_to PrimFloat.nan 5) (init (num := float))) = of_int 180.
Proof. vm_compute. reflexivity. Qed.

End Binary64.

(* ================================================================== *)
(** * Strings *)
(* ================================================================== *)

Module StringFacts.
Import PyStr Spec.
Local Open Scope string_scope.

Lemma append_empty_r (s : string) : s ++ EmptyString = s.
Proof. induction s as [|c s IH]; cbn; congruence. Qed.

Lemma append_assoc (s1 s2 s3 : string) : (s1 ++ s2) ++ s3 = s1 ++ (s2 ++ s3).
Proof. induction s1 as [|c s1 IH]; cbn; congruence. Qed.

Lemma string_of_list_ascii_app (l1 l2 : list ascii) :
  string_of_list_ascii (l1 ++ l2)
  = string_of_list_ascii l1 ++ string_of_list_ascii l2.
Proof. induction l1 as [|c l1 IH]; cbn; [reflexivity | rewrite IH; reflexivity]. Qed.

(** ** [in] is the occurrence of a substring *)






(** ** Trimming keeps a piece of the text *)





(** ** The first match of [\d+] is the first run of digits *)

Lemma int_of_digits_from_value (s : string) (acc : Z) :
  int_of_digits_from acc s
  = (acc * 10 ^ Z.of_nat (String.length s) + decimal_value s)%Z.
Proof.
  revert acc. induction s as [|c s IH]; intros acc.
  - cbn. lia.
  - cbn [int_of_digits_from decimal_value String.length]. rewrite IH.
    rewrite Nat2Z.inj_succ, Z.pow_succ_r by lia. ring.
Qed.

Lemma int_of_digits_value (s : string) : int_of_digits s = decimal_value s.
Proof. unfold int_of_digits. rewrite int_of_digits_from_value. lia. Qed.

(** While a run is being read, the first match is that run continued by
    the digits that follow. *)
Lemma findall_digits_from_head (run : list ascii) (s : string) :
  run <> [] ->
  hd_error (findall_digits_from run s)
  = Some (string_of_list_ascii (rev run) ++ leading_digits s).
Proof.
  revert run. induction s as [|c s IH]; intros run Hrun.
  - cbn. destruct run; [congruence|]. cbn [hd_error].
    rewrite append_empty_r. reflexivity.
  - cbn [findall_digits_from leading_digits]. destruct (is_digit c).
    + rewrite IH by discriminate. cbn [rev]. rewrite string_of_list_ascii_app.
      cbn. rewrite append_assoc. reflexivity.
    + destruct run; [congruence|]. cbn [hd_error].
      rewrite append_empty_r. reflexivity.
Qed.

Lemma findall_digits_head (s : string) :
  hd_error (findall_digits s) = first_digit_run s.
Proof.
  unfold findall_digits. induction s as [|c s IH].
  - reflexivity.
  - cbn [findall_digits_from first_digit_run leading_digits].
    destruct (is_digit c); [|exact IH].
    rewrite findall_digits_from_head by discriminate. reflexivity.
Qed.

Lemma degrees_magnitude (t : string) :
  match findall_digits t with
  | first :: _ => int_of_digits first
  | [] => 30%Z
  end = magnitude t.
Proof.
  unfold magnitude. rewrite <- findall_digits_head.
  destruct (findall_digits t) as [|first rest]; cbn [hd_error].
  - reflexivity.
  - apply int_of_digits_value.
Qed.

(** ** The match of the brace pattern *)



End StringFacts.

(* ================================================================== *)
(** * The fallback parser *)
(* ================================================================== *)

Module ServiceFacts.
Import PyStr LLM Spec Samples StringFacts.
Local Open Scope string_scope.


(** [int] on the first match: the magnitude, or the error of a run that is
    too long. *)
Lemma degrees_outcome (t : string) :
  match findall_digits t with
  | first :: _ => int_of_digit_run first
  | [] => Return 30%Z
  end
  = if over_int_limit t then Raise (int_limit_error (first_run_length t))
    else Return (magnitude t).
Proof.
  unfold over_int_limit, first_run_length, magnitude.
  rewrite <- findall_digits_head.
  destruct (findall_digits t) as [|first rest]; cbn [hd_error].
  - reflexivity.
  - unfold int_of_digit_run. rewrite int_of_digits_value. reflexivity.
Qed.

Section Fallback.
Context {num : Type} {arith : PyNum num}.


(** The parser raises on no other text, and with no other error, than a
    first run of digits that [int] refuses, met after the home and stop
    cases. *)
Lemma fallback_parsing_outcome (text : string) :
  let t := strip (lower text) in
  match _fallback_parsing (num := num) text with
  | Return c => speed c = 5%Z
  | Raise e =>
      any_in ["home"; "center"] t = false
      /\ any_in ["stop"; "halt"] t = false
      /\ over_int_limit t = true
      /\ e = int_limit_error (first_run_length t)
  end.
Proof.
  intros t. unfold _fallback_parsing. fold t. rewrite (degrees_outcome t).
  destruct (any_in ["home"; "center"] t); [reflexivity|].
  destruct (any_in ["stop"; "halt"] t); [reflexivity|].
  destruct (over_int_limit t); [repeat split|].
  cbn [exc_bind].
  destruct (any_in ["pan"; "left"; "right"] t); [reflexivity|].
  destruct (any_in ["tilt"; "up"; "down"] t); reflexivity.
Qed.

Lemma fallback_parsing_returns (text : string) :
  over_int_limit (strip (lower text)) = false ->
  exists c, _fallback_parsing (num := num) text = Return c.
Proof.
  intros Hover. pose proof (fallback_parsing_outcome text) as H. cbv zeta in H.
  destruct (_fallback_parsing text) as [e|c]; [|exists c; reflexivity].
  destruct H as (_ & _ & H & _). congruence.
Qed.


(** C9.  Every command the fallback parser produces has speed 5, the
    default of the dataclass: the parser reads no speed from the text (a
    number in it is the angle).  It produces a command for every text but
    those on which [int] raises; and with the backend unavailable
    [process_command] returns a command of speed 5 for every text, the
    error command it builds from that exception included. *)
Theorem fallback_speed_is_default (text : string) :
  match _fallback_parsing (num := num) text with
  | Return c => speed c = 5%Z
  | Raise e =>
      over_int_limit (strip (lower text)) = true
      /\ e = int_limit_error (first_run_length (strip (lower text)))
  end
  /\ (over_int_limit (strip (lower text)) = false ->
      exists c, _fallback_parsing (num := num) text = Return c /\ speed c = 5%Z)
  /\ (forall (lib : PyLib num) (backend : Ollama),
        speed (process_command false backend text) = 5%Z)
  /\ (exists c, _fallback_parsing (num := num) "tilt up slowly at speed 2" = Return c
                /\ action c = PStr "tilt" /\ value c = of_int 2 /\ speed c = 5%Z).
Proof.
  pose proof (fallback_parsing_outcome text) as H. cbv zeta in H.
  split; [|split; [|split]].
  - destruct (_fallback_parsing text) as [e|c]; [|exact H].
    destruct H as (_ & _ & H1 & H2). split; assumption.
  - intros Hover. destruct (_fallback_parsing text) as [e|c].
    + destruct H as (_ & _ & H1 & _). congruence.
    + exists c. split; [reflexivity | exact H].
  - intros lib backend. unfold process_command, try_except.
    destruct (_fallback_parsing text) as [e|c]; [reflexivity | exact H].
  - eexists. split; [reflexivity|]. repeat split.
Qed.
End Fallback.


End ServiceFacts.

(* ================================================================== *)
(** * The replies of the backend *)
(* ================================================================== *)

Module ReplyFacts.
Import PyStr LLM Spec StringFacts Samples.
Local Open Scope string_scope.

Section Replies.
Context {num : Type} {arith : PyNum num} {lib : PyLib num}.



(** A reply that decodes to a dict with a number as value and as speed
    gives a command marked as a success, whatever its action. *)
Lemma parse_llm_response_success (response text m : string)
      (data : list (string * pyval num)) (value_ : num) (speed_ : Z) :
  search_braces response = Some m ->
  json_loads m = Return (PDict data) ->
  py_float (items_get data "value" (PInt 0)) = Return value_ ->
  py_int (items_get data "speed" (PInt 5)) = Return speed_ ->
  _parse_llm_response response text =
    Return {| action := items_get data "action" (PStr "error");
              value := value_;
              speed := py_max 1%Z (py_min 10%Z speed_);
              message := items_get data "message"
                           (PStr ("Executing "
                                  ++ str_of (items_get data "action" PNone)
                                  ++ " command"));
              success := true;
              error := None |}.
Proof.
  intros E1 E2 E3 E4. unfold _parse_llm_response.
  rewrite E1, E2. cbn [exc_bind data_get]. rewrite E3. cbn [exc_bind].
  rewrite E4. reflexivity.
Qed.

(** An error command of the fallback parser is a failure and carries a
    message. *)
Lemma fallback_error_is_failure (text : string) (c : GimbalCommand num) :
  _fallback_parsing text = Return c ->
  action c = PStr "error" ->
  success c = false /\ exists s, message c = PStr s /\ s <> EmptyString.
Proof.
  unfold _fallback_parsing.
  destruct (any_in ["home"; "center"] _); [intros [= <-]; discriminate|].
  destruct (any_in ["stop"; "halt"] _); [intros [= <-]; discriminate|].
  destruct (match findall_digits _ with
            | [] => Return 30%Z
            | first :: _ => int_of_digit_run first
            end) as [e|degrees]; cbn [exc_bind]; [discriminate|].
  destruct (any_in ["pan"; "left"; "right"] _); [intros [= <-]; discriminate|].
  destruct (any_in ["tilt"; "up"; "down"] _); [intros [= <-]; discriminate|].
  intros [= <-] _. split; [reflexivity|].
  eexists. split; [reflexivity | discriminate].
Qed.

(** Without a decoded reply, an error command is a failure and carries a
    message. *)
Lemma error_without_reply (available : bool) (backend : Ollama) (text : string) :
  (available = false \/ forall content, backend <> ChatReplies content) ->
  let c := process_command available backend text in
  action c = PStr "error" ->
  success c = false /\ exists s, message c = PStr s /\ s <> EmptyString.
Proof.
  intros Hpath c.
  assert (Hfb : action (try_except (_fallback_parsing text)
                          (fun e =>
                             {| action := PStr "error";
                                value := default_value;
                                speed := default_speed;
                                message := PStr ("Error: " ++ e);
                                success := false;
                                error := Some e |})) = PStr "error" ->
                success (try_except (_fallback_parsing text)
                          (fun e =>
                             {| action := PStr "error";
                                value := default_value;
                                speed := default_speed;
                                message := PStr ("Error: " ++ e);
                                success := false;
                                error := Some e |})) = false
                /\ exists s,
                     message (try_except (_fallback_parsing text)
                          (fun e =>
                             {| action := PStr "error";
                                value := default_value;
                                speed := default_speed;
                                message := PStr ("Error: " ++ e);
                                success := false;
                                error := Some e |})) = PStr s
                     /\ s <> EmptyString).
  { destruct (_fallback_parsing text) as [e|c0] eqn:E; cbn [try_except].
    - intros _. split; [reflexivity|]. eexists. split; [reflexivity|discriminate].
    - exact (@fallback_error_is_failure text c0 E). }
  subst c. unfold process_command, _process_with_ollama.
  destruct available.
  - destruct backend as [e|e|content].
    + intros _. split; [reflexivity|]. eexists. split; [reflexivity|discriminate].
    + exact Hfb.
    + destruct Hpath as [Hf|Hb]; [discriminate|].
      contradiction (Hb content). reflexivity.
  - exact Hfb.
Qed.

(** C4.  The claim is that every command of [process_command] with
    action error has success false and a message that is not empty.  The
    code does otherwise on a decoded reply: the reply [{"value": 10}],
    which names no action, gives action error with success true, and the
    reply [{"action": "error", "message": ""}] gives action error with
    success true and the empty message.  [json.loads] is taken on the two
    replies as Python's. *)
Theorem error_action_marked_success (text : string) :
  json_loads reply_without_action = Return (PDict [("value", PInt 10)]) ->
  json_loads reply_empty_message
    = Return (PDict [("action", PStr "error"); ("message", PStr EmptyString)]) ->
  let c1 := process_command true (ChatReplies reply_without_action) text in
  let c2 := process_command true (ChatReplies reply_empty_message) text in
  (action c1 = PStr "error" /\ success c1 = true)
  /\ (action c2 = PStr "error" /\ success c2 = true
      /\ message c2 = PStr EmptyString).
Proof.
  intros E1 E2 c1 c2. subst c1 c2.
  unfold process_command, _process_with_ollama.
  assert (S1 : search_braces (strip reply_without_action)
               = Some reply_without_action) by reflexivity.
  assert (S2 : search_braces (strip reply_empty_message)
               = Some reply_empty_message) by reflexivity.
  erewrite parse_llm_response_success;
    [|exact S1|exact E1|reflexivity|reflexivity].
  erewrite parse_llm_response_success;
    [|exact S2|exact E2|reflexivity|reflexivity].
  repeat split.
Qed.



End Replies.

(** The two replies, decoded by the sample library, for the text of a
    pan command. *)
Lemma error_action_marked_success_witness :
  let c1 := process_command (lib := sample_lib) true
              (ChatReplies reply_without_action) "pan left 45" in
  let c2 := process_command (lib := sample_lib) true
              (ChatReplies reply_empty_message) "pan left 45" in
  (action c1 = PStr "error" /\ success c1 = true)
  /\ (action c2 = PStr "error" /\ success c2 = true
      /\ message c2 = PStr EmptyString).
Proof.
  apply (@error_action_marked_success Q _ sample_lib "pan left 45");
    reflexivity.
Defined.





End ReplyFacts.

(* ================================================================== *)
(** * The dispatch of a command *)
(* ================================================================== *)

Module DispatchFacts.
Import Controller LLM MainWindow Samples.
Local Open Scope string_scope.

Section Dispatch.
Context {num : Type} {arith : PyNum num}.

Lemma eq_str_false (v : pyval num) (text : string) :
  v <> PStr text -> eq_str v text = false.
Proof.
  destruct v as [| | | |s| |]; cbn; try reflexivity.
  intros Hne. destruct (String.eqb_spec s text) as [->|]; congruence.
Qed.

(** C10.  For every command whose action is none of pan, tilt, home and
    stop (the action error, any other string, any value that is no
    string), [execute_gimbal_command] leaves the whole controller as it
    was (pan, tilt, both targets, speed, [is_moving], status) and emits
    no signal: the command is dropped without notice. *)
Theorem unknown_action_is_dropped (command : GimbalCommand num)
    (self : GimbalController num) :
  action command <> PStr "pan" ->
  action command <> PStr "tilt" ->
  action command <> PStr "home" ->
  action command <> PStr "stop" ->
  run (execute_gimbal_command command) self = (self, []).
Proof.
  intros Hpan Htilt Hhome Hstop. unfold execute_gimbal_command.
  rewrite !eq_str_false by assumption. reflexivity.
Qed.
End Dispatch.

(** The error command for a text that is not understood, on a moving
    controller. *)
Lemma unknown_action_is_dropped_witness :
  let command := process_command (lib := sample_lib) false
                   (ChatFails EmptyString) "xyzzy" in
  let self := exec (pan_to 90 3) init in
  action command = PStr "error"
  /\ run (execute_gimbal_command command) self = (self, []).
Proof.
  intros command self. split; [reflexivity|].
  apply (@unknown_action_is_dropped Q _ command self); discriminate.
Defined.

End DispatchFacts.

(* ================================================================== *)
(** * More on the controller, over any numbers *)
(* ================================================================== *)

Unset Implicit Arguments.

Module ControllerMore.
Import Controller Session Spec Terms ControllerFacts.

Section Generic.
Context {num : Type} {arith : PyNum num}.
Local Open Scope string_scope.
Local Open Scope method_scope.

Lemma speed_invariant (self : GimbalController num) :
  reachable self -> (1 <= speed self <= 10)%Z.
Proof.
  induction 1 as [|self op Hreach IH].
  - cbn. lia.
  - destruct op as [a s|a s| | |]; cbn [call].
    + rewrite exec_pan_to. cbn [speed]. apply RationalFacts.py_clamp_bounds_Z. lia.
    + rewrite exec_tilt_to. cbn [speed]. apply RationalFacts.py_clamp_bounds_Z. lia.
    + rewrite exec_move_to_home. cbn [speed]. apply RationalFacts.py_clamp_bounds_Z. lia.
    + rewrite exec_stop. exact IH.
    + destruct (update_keeps_targets self) as (_ & _ & ->). exact IH.
Qed.

(** X1.  In every state a session reaches, with any number type, the
    speed of the controller is an integer from 1 to 10. *)
Theorem speed_always_in_range (self : GimbalController num) :
  reachable self -> (1 <= speed self <= 10)%Z.
Proof. exact (@speed_invariant self). Qed.

Lemma reachable_ticks (n : nat) (self : GimbalController num) :
  reachable self -> reachable (exec (ticks n) self).
Proof.
  intros Hreach. induction n as [|n IH]; [exact Hreach|].
  rewrite exec_ticks_snoc. exact (reach_call Tick IH).
Qed.

Lemma idle_on_target (self : GimbalController num) :
  reachable self -> is_moving self = false ->
  pan self = target_pan self /\ tilt self = target_tilt self.
Proof.
  induction 1 as [|self op Hreach IH].
  - intros _. split; reflexivity.
  - destruct op as [a s|a s| | |]; cbn [call].
    + rewrite exec_pan_to. cbn. discriminate.
    + rewrite exec_tilt_to. cbn. discriminate.
    + rewrite exec_move_to_home. cbn. discriminate.
    + rewrite exec_stop. cbn. auto.
    + destruct (exec_update_cases self)
        as [[Hmov ->]|[(Hmov & Harr & ->)|(Hmov & Harr & ->)]]; cbn;
        [exact IH | auto | discriminate].
Qed.

Lemma status_kept_by_update (self : GimbalController num) :
  status (exec update self) = status self.
Proof.
  destruct (exec_update_cases self)
    as [[Hmov ->]|[(Hmov & Harr & ->)|(Hmov & Harr & ->)]]; reflexivity.
Qed.

Lemma status_kept_by_ticks (n : nat) (self : GimbalController num) :
  status (exec (ticks n) self) = status self.
Proof.
  induction n as [|n IH]; [reflexivity|].
  rewrite exec_ticks_snoc, status_kept_by_update. exact IH.
Qed.

(** X2.  The timer changes the position only: after any number of calls
    of [update], both targets, the speed and the attribute [status] are
    what they were, and a controller that was idle is still idle. *)
Theorem ticks_change_position_only (n : nat) (self : GimbalController num) :
  target_pan (exec (ticks n) self) = target_pan self
  /\ target_tilt (exec (ticks n) self) = target_tilt self
  /\ speed (exec (ticks n) self) = speed self
  /\ status (exec (ticks n) self) = status self
  /\ (is_moving self = false -> is_moving (exec (ticks n) self) = false).
Proof.
  destruct (ticks_keep_targets n self) as (Hp & Ht & Hs).
  repeat split; try assumption.
  - apply status_kept_by_ticks.
  - intros Hidle. rewrite exec_ticks_idle by assumption. exact Hidle.
Qed.

(** X3.  A call of [update] on a moving controller emits exactly one
    position-changed signal, last, and it carries the pan, tilt and speed
    the call leaves in the object.  Before it comes the status Ready when
    the call arrives, and nothing when it advances; [update] never emits
    the status Moving. *)
Theorem update_emits_position (self : GimbalController num) :
  is_moving self = true ->
  let self' := exec update self in
  signals update self
  = ((if arrived self then [status_changed "Ready"] else [])
     ++ [position_changed (mkPosition (pan self') (tilt self') (speed self'))])%list.
Proof.
  intros Hmov self'. subst self'. unfold signals, exec.
  destruct (arrived self) eqn:Harr.
  - rewrite run_update_arrive by assumption. reflexivity.
  - rewrite run_update_advance by assumption. reflexivity.
Qed.

(** X4.  The two axes are set independently, but they share one speed:
    [pan_to] followed by [tilt_to] and the two calls in the other order
    leave the same targets and the same position, and the speed is the
    clamped speed of the call made last. *)
Theorem axes_share_the_speed (a b : num) (s1 s2 : Z) (self : GimbalController num) :
  let pan_first := exec (pan_to a s1 ;; tilt_to b s2) self in
  let tilt_first := exec (tilt_to b s2 ;; pan_to a s1) self in
  target_pan pan_first = target_pan tilt_first
  /\ target_tilt pan_first = target_tilt tilt_first
  /\ pan pan_first = pan self /\ tilt pan_first = tilt self
  /\ pan tilt_first = pan self /\ tilt tilt_first = tilt self
  /\ is_moving pan_first = true /\ is_moving tilt_first = true
  /\ speed pan_first = clamp s2 1%Z 10%Z
  /\ speed tilt_first = clamp s1 1%Z 10%Z.
Proof.
  intros pan_first tilt_first. subst pan_first tilt_first.
  rewrite !exec_seq, !exec_pan_to, !exec_tilt_to.
  cbn [target_pan target_tilt pan tilt is_moving speed].
  rewrite <- !RationalFacts.py_clamp_Z by lia.
  repeat split.
Qed.

(** X5.  [stop] right after a target was set cancels the motion but not
    the speed: position untouched, both targets on the position, idle,
    speed the clamped speed of the cancelled call.  And [stop] twice is
    [stop] once. *)
Theorem stop_cancels_target_not_speed (a : num) (s : Z) (self : GimbalController num) :
  let self' := exec (pan_to a s ;; stop) self in
  pan self' = pan self /\ tilt self' = tilt self
  /\ target_pan self' = pan self /\ target_tilt self' = tilt self
  /\ is_moving self' = false
  /\ speed self' = clamp s 1%Z 10%Z
  /\ exec (stop ;; stop) self = exec stop self.
Proof.
  intros self'. subst self'.
  rewrite !exec_seq, !exec_stop, exec_pan_to.
  cbn [target_pan target_tilt pan tilt is_moving speed status].
  rewrite <- RationalFacts.py_clamp_Z by lia.
  repeat split.
Qed.

End Generic.

(** A session with targets beyond the limits and speeds beyond the range. *)
Lemma speed_always_in_range_witness :
  let self := exec (tilt_to (-400) (-7)) (exec (pan_to (num := Q) 500 99) init) in
  reachable self /\ (1 <= speed self <= 10)%Z.
Proof.
  intros self.
  assert (Hreach : reachable self)
    by exact (reach_call (SetTiltTarget (-400)%Q (-7))
               (reach_call (SetPanTarget 500%Q 99) reach_init)).
  split; [exact Hreach|].
  exact (@speed_always_in_range Q _ self Hreach).
Defined.

(** The first tick after a pan target of 100 at speed 5. *)
Lemma update_emits_position_witness :
  let self := exec (pan_to (num := Q) 100 5) init in
  is_moving self = true
  /\ signals update self
     = [position_changed
          (mkPosition (pan (exec update self)) (tilt (exec update self)) 5)].
Proof.
  intros self. split; [reflexivity|].
  exact (@update_emits_position Q _ self eq_refl).
Defined.

End ControllerMore.

(* ================================================================== *)
(** * More on the approach, over exact rationals *)
(* ================================================================== *)

Module MotionMore.
Import Controller Session Spec Terms ControllerFacts RationalFacts Convergence
       ControllerMore.
Local Open Scope Q_scope.

(** X6.  In every state a session reaches, the pan target is in
    [-180, 180] and the tilt target in [-90, 90], whatever angles were
    asked for. *)
Theorem targets_within_limits (self : GimbalController Q) :
  reachable self ->
  (-180 <= target_pan self <= 180) /\ (-90 <= target_tilt self <= 90).
Proof.
  intros Hreach. apply reachable_invariant in Hreach.
  destruct Hreach as (_ & Ht & _). exact Ht.
Qed.

Lemma targets_within_limits_witness :
  let self := exec (tilt_to (-400) 3) (exec (pan_to 500 5) init) in
  reachable self
  /\ (-180 <= target_pan self <= 180) /\ (-90 <= target_tilt self <= 90).
Proof.
  intros self.
  assert (Hreach : reachable self)
    by exact (reach_call (SetTiltTarget (-400) 3)
               (reach_call (SetPanTarget 500 5) reach_init)).
  split; [exact Hreach|].
  exact (targets_within_limits self Hreach).
Defined.

(** ** The rate of the approach *)

Lemma decay_range (s : Z) :
  (1 <= s <= 10)%Z -> 9 # 10 <= decay s <= 99 # 100.
Proof.
  intros Hs. pose proof (move_speed_range Hs). unfold decay. lra.
Qed.

Lemma qpow_pos (q : Q) (n : nat) : 0 < q -> 0 < qpow q n.
Proof.
  intros Hq. induction n as [|n IH]; cbn [qpow]; [reflexivity|].
  apply Qmult_lt_0_compat; assumption.
Qed.

Lemma qpow_le_1 (q : Q) (n : nat) : 0 < q -> q <= 1 -> qpow q n <= 1.
Proof.
  intros Hq Hq1. induction n as [|n IH]; cbn [qpow]; [lra|].
  pose proof (qpow_pos q n Hq) as Hpos.
  assert (q * qpow q n <= 1 * qpow q n) by (apply Qmult_le_compat_r; lra).
  lra.
Qed.

Lemma exec_update_advance (self : GimbalController Q) :
  is_moving self = true -> arrived self = false ->
  exec update self
  = mkGimbal (pan self + (target_pan self - pan self) * (inject_Z (speed self) / 100))
             (tilt self + (target_tilt self - tilt self) * (inject_Z (speed self) / 100))
             (speed self) true (target_pan self) (target_tilt self) (status self).
Proof.
  intros Hmov Harr. unfold exec. rewrite run_update_advance by assumption.
  reflexivity.
Qed.

Lemma advance_distances (self : GimbalController Q) :
  is_moving self = true -> arrived self = false -> speed_in_range self ->
  pan_distance (exec update self) == pan_distance self * decay (speed self)
  /\ tilt_distance (exec update self) == tilt_distance self * decay (speed self).
Proof.
  intros Hmov Harr Hs. rewrite exec_update_advance by assumption.
  pose proof (move_speed_range Hs) as Hk.
  unfold pan_distance, tilt_distance, decay. cbn [pan tilt target_pan target_tilt].
  split; apply step_distance; lra.
Qed.

(** X7.  An advancing call of [update] (a distance at 0.1 or more, speed
    from 1 to 10) multiplies both remaining distances by [1 - speed/100]:
    the approach is exponential. *)
Theorem update_contracts_distances (self : GimbalController Q) :
  is_moving self = true ->
  (1 <= speed self <= 10)%Z ->
  1 # 10 <= pan_distance self \/ 1 # 10 <= tilt_distance self ->
  pan_distance (exec update self) == pan_distance self * (1 - inject_Z (speed self) / 100)
  /\ tilt_distance (exec update self)
     == tilt_distance self * (1 - inject_Z (speed self) / 100).
Proof.
  intros Hmov Hs Hfar. apply not_arrived_spec in Hfar.
  apply advance_distances; assumption.
Qed.

Lemma update_contracts_distances_witness :
  let self := exec (pan_to 100 5) init in
  pan_distance (exec update self) == 95.
Proof.
  intros self.
  assert (Hfar : 1 # 10 <= pan_distance self \/ 1 # 10 <= tilt_distance self)
    by (left; by_evaluation).
  destruct (update_contracts_distances self eq_refl ltac:(cbn; lia) Hfar) as [-> _].
  reflexivity.
Defined.

(** While a distance scaled by the power [n] of the decay is still at 0.1
    or more, the first [n + 1] ticks all advance. *)
Lemma far_now (d q : Q) (n : nat) :
  0 <= d -> 0 < q -> q <= 1 -> 1 # 10 <= d * qpow q n -> 1 # 10 <= d.
Proof.
  intros Hd Hq Hq1 Hfar.
  pose proof (qpow_le_1 q n Hq Hq1) as Hle.
  assert (d * qpow q n <= d * 1).
  { rewrite (Qmult_comm d (qpow q n)), (Qmult_comm d 1).
    apply Qmult_le_compat_r; assumption. }
  lra.
Qed.

Lemma ticks_closed_form (n : nat) : forall self : GimbalController Q,
  is_moving self = true ->
  speed_in_range self ->
  (1 # 10 <= pan_distance self * qpow (decay (speed self)) n
   \/ 1 # 10 <= tilt_distance self * qpow (decay (speed self)) n) ->
  let self' := exec (ticks (S n)) self in
  is_moving self' = true
  /\ target_pan self - pan self'
     == (target_pan self - pan self) * qpow (decay (speed self)) (S n)
  /\ target_tilt self - tilt self'
     == (target_tilt self - tilt self) * qpow (decay (speed self)) (S n).
Proof.
  induction n as [|n IH]; intros self Hmov Hs Hfar self'; subst self'.
  - assert (Harr : arrived self = false).
    { apply not_arrived_spec. cbn [qpow] in Hfar.
      destruct Hfar; [left|right]; lra. }
    rewrite exec_ticks_S, exec_ticks_0, exec_update_advance by assumption.
    cbn [is_moving pan tilt qpow]. unfold decay.
    split; [reflexivity|]. split; ring.
  - pose proof (decay_range _ Hs) as Hq.
    assert (Harr : arrived self = false).
    { apply not_arrived_spec.
      destruct Hfar as [Hfar|Hfar]; [left|right];
        (eapply far_now; [apply Qabs_nonneg| | |exact Hfar]; lra). }
    destruct (advance_distances self Hmov Harr Hs) as [Ep Et].
    destruct (update_keeps_targets self) as (Etp & Ett & Esp).
    pose proof (exec_update_advance self Hmov Harr) as E1.
    assert (Hp1 : pan (exec update self)
                  = pan self + (target_pan self - pan self)
                               * (inject_Z (speed self) / 100))
      by (rewrite E1; reflexivity).
    assert (Ht1 : tilt (exec update self)
                  = tilt self + (target_tilt self - tilt self)
                                * (inject_Z (speed self) / 100))
      by (rewrite E1; reflexivity).
    assert (Hm1 : is_moving (exec update self) = true)
      by (rewrite E1; reflexivity).
    rewrite exec_ticks_S.
    destruct (IH (exec update self)) as (Hm & Hp & Ht).
    + exact Hm1.
    + unfold speed_in_range. rewrite Esp. exact Hs.
    + rewrite Esp, Ep, Et. cbn [qpow] in Hfar.
      destruct Hfar as [Hfar|Hfar]; [left|right];
        rewrite <- Qmult_assoc; exact Hfar.
    + rewrite Etp, Esp, Hp1 in Hp. rewrite Ett, Esp, Ht1 in Ht.
      split; [exact Hm|].
      split; [rewrite Hp | rewrite Ht]; cbn [qpow]; unfold decay; ring.
Qed.

Lemma ticks_arrive_at_rate (n : nat) : forall self : GimbalController Q,
  is_moving self = true ->
  speed_in_range self ->
  pan_distance self * qpow (decay (speed self)) n < 1 # 10 ->
  tilt_distance self * qpow (decay (speed self)) n < 1 # 10 ->
  is_moving (exec (ticks (S n)) self) = false
  /\ pan (exec (ticks (S n)) self) = target_pan self
  /\ tilt (exec (ticks (S n)) self) = target_tilt self.
Proof.
  induction n as [|n IH]; intros self Hmov Hs Hp Ht.
  - rewrite exec_ticks_S, exec_ticks_0.
    assert (Harr : arrived self = true).
    { apply arrived_spec. cbn [qpow] in Hp, Ht. split; lra. }
    unfold exec. rewrite run_update_arrive by assumption. cbn. auto.
  - rewrite exec_ticks_S.
    destruct (arrived self) eqn:Harr.
    + unfold exec at 2 4 6. rewrite run_update_arrive by assumption. cbn [fst].
      rewrite exec_ticks_idle by reflexivity. cbn. auto.
    + destruct (advance_distances self Hmov Harr Hs) as [Ep Et].
      destruct (update_keeps_targets self) as (Etp & Ett & Esp).
      rewrite <- Etp, <- Ett.
      apply IH.
      * rewrite exec_update_advance by assumption. reflexivity.
      * unfold speed_in_range. rewrite Esp. exact Hs.
      * rewrite Esp, Ep, <- Qmult_assoc. exact Hp.
      * rewrite Esp, Et, <- Qmult_assoc. exact Ht.
Qed.

(** X8.  While a distance, multiplied by the power [n] of [1 - speed/100],
    is still at 0.1 or more, the controller is still moving after
    [n + 1] ticks, and what remains on each axis is the difference it
    started with times the power [n + 1] of [1 - speed/100]. *)
Theorem ticks_follow_closed_form (n : nat) (self : GimbalController Q) :
  is_moving self = true ->
  (1 <= speed self <= 10)%Z ->
  (1 # 10 <= pan_distance self * qpow (decay (speed self)) n
   \/ 1 # 10 <= tilt_distance self * qpow (decay (speed self)) n) ->
  let self' := exec (ticks (S n)) self in
  is_moving self' = true
  /\ target_pan self - pan self'
     == (target_pan self - pan self) * qpow (decay (speed self)) (S n)
  /\ target_tilt self - tilt self'
     == (target_tilt self - tilt self) * qpow (decay (speed self)) (S n).
Proof. exact (ticks_closed_form n self). Qed.

(** From pan 0 towards 100 at speed 10: after three ticks 72.9 remain. *)
Lemma ticks_follow_closed_form_witness :
  let self := exec (pan_to 100 10) init in
  is_moving (exec (ticks 3) self) = true
  /\ target_pan self - pan (exec (ticks 3) self) == 729 # 10.
Proof.
  intros self.
  assert (Hfar : 1 # 10 <= pan_distance self * qpow (decay (speed self)) 2
                 \/ 1 # 10 <= tilt_distance self * qpow (decay (speed self)) 2)
    by (left; by_evaluation).
  destruct (ticks_follow_closed_form 2 self eq_refl ltac:(cbn; lia) Hfar)
    as (Hm & Hp & _).
  split; [exact Hm|]. rewrite Hp. reflexivity.
Defined.

(** X9.  In exact rational arithmetic: once both distances, multiplied
    by the power [n] of [1 - speed/100], are below 0.1, the controller is
    idle on its targets after [n + 1] ticks.  (With the floats of the
    code a difference below 0.1 can round to 0.1, and the arrival then
    comes a tick later.) *)
Theorem ticks_arrive_when_decayed (n : nat) (self : GimbalController Q) :
  is_moving self = true ->
  (1 <= speed self <= 10)%Z ->
  pan_distance self * qpow (decay (speed self)) n < 1 # 10 ->
  tilt_distance self * qpow (decay (speed self)) n < 1 # 10 ->
  is_moving (exec (ticks (S n)) self) = false
  /\ pan (exec (ticks (S n)) self) = target_pan self
  /\ tilt (exec (ticks (S n)) self) = target_tilt self.
Proof. exact (ticks_arrive_at_rate n self). Qed.

(** From pan 0 towards 100 at speed 10, 67 ticks are enough. *)
Lemma ticks_arrive_when_decayed_witness :
  let self := exec (pan_to 100 10) init in
  is_moving (exec (ticks 67) self) = false
  /\ pan (exec (ticks 67) self) = target_pan self
  /\ tilt (exec (ticks 67) self) = target_tilt self.
Proof.
  intros self.
  apply (ticks_arrive_when_decayed 66 self eq_refl ltac:(cbn; lia));
    vm_compute; reflexivity.
Defined.

(** ** A bound on every motion of a session *)

Lemma qpow_mono (a b : Q) (n : nat) :
  0 <= a -> a <= b -> qpow a n <= qpow b n.
Proof.
  intros Ha Hab. induction n as [|n IH]; cbn [qpow]; [lra|].
  assert (Hpa : 0 <= qpow a n).
  { clear IH. induction n as [|n IHn]; cbn [qpow]; [lra|].
    apply Qmult_le_0_compat; assumption. }
  assert (a * qpow a n <= b * qpow a n) by (apply Qmult_le_compat_r; assumption).
  assert (b * qpow a n <= b * qpow b n).
  { rewrite (Qmult_comm b (qpow a n)), (Qmult_comm b (qpow b n)).
    apply Qmult_le_compat_r; lra. }
  lra.
Qed.

Lemma slowest_decay : 360 * qpow (99 # 100) 815 < 1 # 10.
Proof. vm_compute. reflexivity. Qed.

Lemma decayed_within (d : Q) (s : Z) :
  (1 <= s <= 10)%Z -> 0 <= d <= 360 -> d * qpow (decay s) 815 < 1 # 10.
Proof.
  intros Hs Hd. pose proof (decay_range s Hs) as Hq.
  assert (H1 : qpow (decay s) 815 <= qpow (99 # 100) 815)
    by (apply qpow_mono; lra).
  assert (H0 : 0 < qpow (decay s) 815) by (apply qpow_pos; lra).
  assert (H2 : d * qpow (decay s) 815 <= 360 * qpow (decay s) 815)
    by (apply Qmult_le_compat_r; lra).
  assert (H3 : 360 * qpow (decay s) 815 <= 360 * qpow (99 # 100) 815).
  { rewrite (Qmult_comm 360 (qpow (decay s) 815)),
            (Qmult_comm 360 (qpow (99 # 100) 815)).
    apply Qmult_le_compat_r; lra. }
  pose proof slowest_decay. lra.
Qed.

Lemma motion_ends (self : GimbalController Q) :
  reachable self ->
  is_moving (exec (ticks 816) self) = false
  /\ pan (exec (ticks 816) self) = target_pan self
  /\ tilt (exec (ticks 816) self) = target_tilt self.
Proof.
  intros Hreach.
  destruct (is_moving self) eqn:Hmov.
  - pose proof (reachable_invariant Hreach) as ((Hp & Ht) & (Htp & Htt) & Hs).
    apply ticks_arrive_at_rate; try assumption.
    + apply decayed_within; [exact Hs|].
      unfold pan_distance. split; [apply Qabs_nonneg|].
      apply Qabs_Qle_condition. lra.
    + apply decayed_within; [exact Hs|].
      unfold tilt_distance. split; [apply Qabs_nonneg|].
      apply Qabs_Qle_condition. lra.
  - rewrite exec_ticks_idle by assumption.
    split; [exact Hmov|]. apply idle_on_target; assumption.
Qed.

(** X10.  In a session every motion is over within 816 ticks of the
    timer, whatever the targets and the speed: after 816 calls of
    [update] the controller is idle with pan and tilt on the targets. *)
Theorem every_motion_ends (self : GimbalController Q) :
  reachable self ->
  is_moving (exec (ticks 816) self) = false
  /\ pan (exec (ticks 816) self) = target_pan self
  /\ tilt (exec (ticks 816) self) = target_tilt self.
Proof. exact (motion_ends self). Qed.

(** The longest way at the lowest speed: from -180 to 180 at speed 1. *)
Lemma every_motion_ends_witness :
  let self := exec (pan_to 180 1) (exec (ticks 816) (exec (pan_to (-180) 10) init)) in
  reachable self
  /\ is_moving (exec (ticks 816) self) = false
  /\ pan (exec (ticks 816) self) = target_pan self.
Proof.
  intros self.
  assert (Hreach : reachable self).
  { exact (reach_call (SetPanTarget 180 1)
             (reachable_ticks 816 _
                (reach_call (SetPanTarget (-180) 10) reach_init))). }
  split; [exact Hreach|].
  destruct (every_motion_ends self Hreach) as (H1 & H2 & _). split; assumption.
Defined.

(** X11.  From every state of a session, [move_to_home] followed by 816
    ticks leaves the controller idle at pan 0 and tilt 0. *)
Theorem home_is_reached (self : GimbalController Q) :
  reachable self ->
  let self' := exec (bind move_to_home (fun _ => ticks 816)) self in
  is_moving self' = false /\ pan self' = 0 /\ tilt self' = 0.
Proof.
  intros Hreach self'. subst self'. rewrite exec_seq.
  destruct (motion_ends (exec move_to_home self) (reach_call GoHome Hreach))
    as (Hm & Hp & Ht).
  split; [exact Hm|]. rewrite Hp, Ht, exec_move_to_home. split; reflexivity.
Qed.

Lemma home_is_reached_witness :
  let self := exec (ticks 4) (exec (pan_to 170 2) init) in
  let self' := exec (bind move_to_home (fun _ => ticks 816)) self in
  reachable self
  /\ is_moving self' = false /\ pan self' = 0 /\ tilt self' = 0.
Proof.
  intros self self'.
  assert (Hreach : reachable self).
  { exact (reachable_ticks 4 _ (reach_call (SetPanTarget 170 2) reach_init)). }
  split; [exact Hreach|].
  exact (home_is_reached self Hreach).
Defined.

End MotionMore.

(* ================================================================== *)
(** * More on strings: trimming and lower-casing *)
(* ================================================================== *)

Module StringMore.
Import PyStr Spec Terms StringFacts.
Local Open Scope string_scope.

Ltac each_character c :=
  destruct c as [[] [] [] [] [] [] [] []]; reflexivity.

Lemma lower_char_idem (c : ascii) : lower_char (lower_char c) = lower_char c.
Proof. each_character c. Qed.

Lemma is_space_lower_char (c : ascii) : is_space (lower_char c) = is_space c.
Proof. each_character c. Qed.

Lemma lower_idem (s : string) : lower (lower s) = lower s.
Proof.
  induction s as [|c s IH]; cbn [lower]; [reflexivity|].
  rewrite lower_char_idem, IH. reflexivity.
Qed.

Lemma lower_lstrip (s : string) : lower (lstrip s) = lstrip (lower s).
Proof.
  induction s as [|c s IH]; cbn [lower lstrip]; [reflexivity|].
  rewrite is_space_lower_char. destruct (is_space c); [exact IH|reflexivity].
Qed.

Lemma lower_rstrip (s : string) : lower (rstrip s) = rstrip (lower s).
Proof.
  induction s as [|c s IH]; cbn [lower rstrip]; [reflexivity|].
  rewrite <- IH, is_space_lower_char.
  destruct (rstrip s) as [|d r]; cbn [lower].
  - destruct (is_space c); reflexivity.
  - reflexivity.
Qed.

Lemma lower_strip (s : string) : lower (strip s) = strip (lower s).
Proof. unfold strip. rewrite lower_rstrip, lower_lstrip. reflexivity. Qed.

Lemma rstrip_cons_kept (c : ascii) (s : string) :
  is_space c = false -> rstrip (String c s) = String c (rstrip s).
Proof.
  intros Hc. cbn [rstrip]. rewrite Hc. destruct (rstrip s); reflexivity.
Qed.

Lemma rstrip_idem (s : string) : rstrip (rstrip s) = rstrip s.
Proof.
  induction s as [|c s IH]; cbn [rstrip]; [reflexivity|].
  destruct (rstrip s) as [|d r] eqn:E.
  - destruct (is_space c) eqn:Hc; [reflexivity|].
    cbn [rstrip]. rewrite Hc. reflexivity.
  - cbn [rstrip]. cbn [rstrip] in IH. rewrite IH. reflexivity.
Qed.

Lemma lstrip_starts_kept (s : string) : starts_kept (lstrip s).
Proof.
  induction s as [|c s IH]; cbn [lstrip]; [exact I|].
  destruct (is_space c) eqn:Hc; [exact IH|exact Hc].
Qed.

Lemma lstrip_fixed (s : string) : starts_kept s -> lstrip s = s.
Proof.
  destruct s as [|c s]; cbn; [reflexivity|]. intros ->. reflexivity.
Qed.

Lemma rstrip_starts_kept (s : string) : starts_kept s -> starts_kept (rstrip s).
Proof.
  destruct s as [|c s]; [intros _; exact I|].
  cbn [starts_kept]. intros Hc. rewrite rstrip_cons_kept by assumption. exact Hc.
Qed.

Lemma strip_idem (s : string) : strip (strip s) = strip s.
Proof.
  unfold strip.
  rewrite (lstrip_fixed (rstrip (lstrip s)))
    by (apply rstrip_starts_kept, lstrip_starts_kept).
  apply rstrip_idem.
Qed.

Lemma lstrip_empty_iff (s : string) :
  lstrip s = EmptyString <-> all_space s = true.
Proof.
  induction s as [|c s IH]; cbn [lstrip all_space]; [tauto|].
  destruct (is_space c); cbn [andb]; [exact IH|].
  split; discriminate.
Qed.

Lemma rstrip_empty_iff (s : string) :
  rstrip s = EmptyString <-> all_space s = true.
Proof.
  induction s as [|c s IH]; cbn [rstrip all_space]; [tauto|].
  destruct (rstrip s) as [|d r].
  - destruct (is_space c); cbn [andb]; [tauto|]. split; discriminate.
  - split; [discriminate|]. intros H. apply andb_true_iff in H.
    destruct H as [_ H]. apply IH in H. discriminate.
Qed.

Lemma all_space_starts_kept (s : string) :
  starts_kept s -> all_space s = true -> s = EmptyString.
Proof.
  destruct s as [|c s]; [reflexivity|]. cbn. intros ->. discriminate.
Qed.

Lemma strip_empty_iff (s : string) :
  strip s = EmptyString <-> all_space s = true.
Proof.
  unfold strip. rewrite rstrip_empty_iff. split.
  - intros H. apply lstrip_empty_iff.
    apply all_space_starts_kept; [apply lstrip_starts_kept|exact H].
  - intros H. apply lstrip_empty_iff in H. rewrite H. reflexivity.
Qed.

End StringMore.

(* ================================================================== *)
(** * More on the service *)
(* ================================================================== *)

Module ServiceMore.
Import PyStr LLM Spec Terms StringFacts StringMore Samples MoreSamples.
Local Open Scope string_scope.

Section Fallback.
Context {num : Type} {arith : PyNum num}.

Lemma fallback_speed_5 (text : string) (c : GimbalCommand num) :
  _fallback_parsing text = Return c -> speed c = 5%Z.
Proof.
  intros E. pose proof (ServiceFacts.fallback_parsing_outcome (num := num) text) as H.
  cbv zeta in H. rewrite E in H. exact H.
Qed.

(** X12.  Every command the fallback parser returns is well formed: its
    action is one of home, stop, pan, tilt and error; success is false
    exactly when the action is error; the message is a string that is not
    empty; the field [error] is [None]; and the value is 0 unless the
    action is pan or tilt.  The parser returns a command for every text
    but one: after the home and stop cases, a first run of digits of more
    than 4300 digits makes [int] raise, and the parser with it. *)
Theorem fallback_command_well_formed (text : string) :
  match _fallback_parsing (num := num) text with
  | Return c =>
      In (action c) [PStr "home"; PStr "stop"; PStr "pan"; PStr "tilt"; PStr "error"]
      /\ (success c = false <-> action c = PStr "error")
      /\ (exists s, message c = PStr s /\ s <> EmptyString)
      /\ error c = None
      /\ (action c <> PStr "pan" -> action c <> PStr "tilt" -> value c = of_int 0)
  | Raise e =>
      any_in ["home"; "center"] (strip (lower text)) = false
      /\ any_in ["stop"; "halt"] (strip (lower text)) = false
      /\ over_int_limit (strip (lower text)) = true
      /\ e = int_limit_error (first_run_length (strip (lower text)))
  end
  /\ (over_int_limit (strip (lower text)) = false ->
      exists c, _fallback_parsing (num := num) text = Return c).
Proof.
  split; [|apply ServiceFacts.fallback_parsing_returns].
  unfold _fallback_parsing.
  rewrite (ServiceFacts.degrees_outcome (strip (lower text))).
  destruct (any_in ["home"; "center"] _);
    [|destruct (any_in ["stop"; "halt"] _);
      [|destruct (over_int_limit _); [repeat split|];
        cbn [exc_bind];
        destruct (any_in ["pan"; "left"; "right"] _);
          [|destruct (any_in ["tilt"; "up"; "down"] _)]]].
  all: cbn [action success message error value In].
  all: split; [auto 10|].
  all: split; [split; intros; first [discriminate | congruence | reflexivity]|].
  all: split; [eexists; split; [reflexivity|discriminate]|].
  all: split; [reflexivity|].
  all: intros; first [reflexivity | congruence].
Qed.

(** X13.  The fallback parser does not depend on the case of the text nor
    on white space around it: the text trimmed, and the text lower-cased,
    end as the text itself does, with the same command or the same
    exception.  So the trimming that the control panel does before it
    sends a text changes nothing. *)
Theorem fallback_ignores_case_and_margin (text : string) :
  _fallback_parsing (num := num) (strip text) = _fallback_parsing text
  /\ _fallback_parsing (num := num) (lower text) = _fallback_parsing text.
Proof.
  split; unfold _fallback_parsing.
  - rewrite lower_strip, strip_idem. reflexivity.
  - rewrite lower_idem. reflexivity.
Qed.

End Fallback.

Section Replies.
Context {num : Type} {arith : PyNum num} {lib : PyLib num}.

(** The two outcomes of [_parse_llm_response]: the fallback, or a command
    built from a decoded dict. *)
Lemma parse_llm_response_cases (response text : string) :
  _parse_llm_response response text = _fallback_parsing text
  \/ exists m items value_ speed_,
       search_braces response = Some m
       /\ json_loads m = Return (PDict items)
       /\ py_float (items_get items "value" (PInt 0)) = Return value_
       /\ py_int (items_get items "speed" (PInt 5)) = Return speed_
       /\ _parse_llm_response response text =
            Return {| action := items_get items "action" (PStr "error");
                      value := value_;
                      speed := py_max 1%Z (py_min 10%Z speed_);
                      message := items_get items "message"
                                   (PStr ("Executing "
                                          ++ str_of (items_get items "action" PNone)
                                          ++ " command"));
                      success := true;
                      error := None |}.
Proof.
  unfold _parse_llm_response.
  destruct (search_braces response) as [m|] eqn:Hm; [|left; reflexivity].
  destruct (json_loads m) as [e|data] eqn:Hj; [left; reflexivity|].
  destruct data as [| | | | |l|items]; try (left; reflexivity).
  cbn [exc_bind data_get try_except_raising].
  destruct (py_float (items_get items "value" (PInt 0))) as [e|value_] eqn:Hv;
    [left; reflexivity|].
  cbn [exc_bind].
  destruct (py_int (items_get items "speed" (PInt 5))) as [e|speed_] eqn:Hs;
    [left; reflexivity|].
  right. exists m, items, value_, speed_.
  repeat split; first [assumption | reflexivity].
Qed.

Lemma parse_speed_in_range (response text : string) (c : GimbalCommand num) :
  _parse_llm_response response text = Return c ->
  (1 <= speed c <= 10)%Z.
Proof.
  destruct (parse_llm_response_cases response text)
    as [->|(m & items & v & sp & _ & _ & _ & _ & ->)].
  - intros E. rewrite (fallback_speed_5 text c E). lia.
  - intros [= <-]. cbn [speed]. apply RationalFacts.py_clamp_bounds_Z. lia.
Qed.

(** The command of [process_command]: one that [_parse_llm_response] or
    [_fallback_parsing] returned, or the error command. *)
Lemma process_command_cases (available : bool) (backend : Ollama)
    (text : string) :
  let c := process_command available backend text in
  (exists response, _parse_llm_response response text = Return c)
  \/ _fallback_parsing text = Return c
  \/ exists e, c = {| action := PStr "error";
                      value := default_value;
                      speed := default_speed;
                      message := PStr ("Error: " ++ e);
                      success := false;
                      error := Some e |}.
Proof.
  intros c. subst c. unfold process_command, _process_with_ollama.
  assert (Hfb : forall r,
            r = _fallback_parsing text ->
            _fallback_parsing text
            = Return (try_except r
                        (fun e =>
                           {| action := PStr "error";
                              value := default_value;
                              speed := default_speed;
                              message := PStr ("Error: " ++ e);
                              success := false;
                              error := Some e |}))
            \/ exists e,
                 try_except r
                   (fun e =>
                      {| action := PStr "error";
                         value := default_value;
                         speed := default_speed;
                         message := PStr ("Error: " ++ e);
                         success := false;
                         error := Some e |})
                 = {| action := PStr "error";
                      value := default_value;
                      speed := default_speed;
                      message := PStr ("Error: " ++ e);
                      success := false;
                      error := Some e |}).
  { intros r ->. destruct (_fallback_parsing text) as [e|c]; cbn [try_except].
    - right. exists e. reflexivity.
    - left. reflexivity. }
  destruct available; [destruct backend as [e|e|content]|].
  - right. right. exists e. reflexivity.
  - right. apply Hfb. reflexivity.
  - cbv zeta.
    destruct (_parse_llm_response (strip content) text) as [e|c] eqn:E;
      cbn [try_except_raising try_except].
    + right. apply Hfb. reflexivity.
    + left. exists (strip content). exact E.
  - right. apply Hfb. reflexivity.
Qed.

Lemma command_speed_bounds (available : bool) (backend : Ollama)
    (text : string) :
  (1 <= speed (process_command available backend text) <= 10)%Z.
Proof.
  destruct (process_command_cases available backend text)
    as [[response E]|[E|[e ->]]].
  - exact (parse_speed_in_range response text _ E).
  - rewrite (fallback_speed_5 text _ E). lia.
  - cbn [speed]. unfold default_speed. lia.
Qed.

(** X14.  Whatever the backend does and replies, and whatever
    [json.loads] makes of the reply, the command [process_command]
    returns has a speed from 1 to 10. *)
Theorem command_speed_in_range (available : bool) (backend : Ollama)
    (text : string) :
  (1 <= speed (process_command available backend text) <= 10)%Z.
Proof. exact (command_speed_bounds available backend text). Qed.

(** X15.  A reply that decodes but cannot be used ends as the fallback
    parser does on the text, with its command or its exception: when the
    decoded value is no dict, when [float] of its value raises, or when
    [int] of its speed raises. *)
Theorem unusable_reply_falls_back (response text m : string) (data : pyval num) :
  search_braces response = Some m ->
  json_loads m = Return data ->
  match data with
  | PDict items =>
      (exists e, py_float (items_get items "value" (PInt 0)) = Raise e)
      \/ (exists e, py_int (items_get items "speed" (PInt 5)) = Raise e)
  | _ => True
  end ->
  _parse_llm_response response text = _fallback_parsing text.
Proof.
  intros Hm Hj Hbad. unfold _parse_llm_response. rewrite Hm, Hj.
  destruct data as [| | | | |l|items]; try reflexivity.
  cbn [exc_bind data_get].
  destruct Hbad as [[e He]|[e He]].
  - rewrite He. reflexivity.
  - destruct (py_float (items_get items "value" (PInt 0))); [reflexivity|].
    cbn [exc_bind]. rewrite He. reflexivity.
Qed.

(** X16.  A decoded dict that has neither value nor speed nor message gives
    a command with value 0, speed 5 and the message made of its action;
    its action is that of the dict, or error when the dict has none; and
    it is marked as a success. *)
Theorem reply_defaults (response text m : string)
    (items : list (string * pyval num)) :
  search_braces response = Some m ->
  json_loads m = Return (PDict items) ->
  lacks items "value" -> lacks items "speed" -> lacks items "message" ->
  _parse_llm_response response text =
    Return {| action := items_get items "action" (PStr "error");
              value := of_int 0;
              speed := 5;
              message := PStr ("Executing "
                               ++ str_of (items_get items "action" PNone)
                               ++ " command");
              success := true;
              error := None |}.
Proof.
  intros Hm Hj Hv Hs Hmsg. unfold _parse_llm_response. rewrite Hm, Hj.
  cbn [exc_bind data_get]. rewrite Hv, Hs, Hmsg. reflexivity.
Qed.

End Replies.

(** The reply [{"value": null}]: [float(None)] raises. *)
Lemma unusable_reply_falls_back_witness :
  _parse_llm_response (lib := more_lib) reply_null_value "tilt down 10"
  = _fallback_parsing "tilt down 10".
Proof.
  apply (@unusable_reply_falls_back Q _ more_lib reply_null_value "tilt down 10"
           reply_null_value (PDict [("value", PNone)]));
    [reflexivity | reflexivity |].
  left. eexists. reflexivity.
Defined.

(** The reply [{"action": "home"}]. *)
Lemma reply_defaults_witness :
  _parse_llm_response (lib := more_lib) reply_home_only "tilt down 10"
  = Return {| action := PStr "home"; value := 0; speed := 5;
              message := PStr "Executing home command";
              success := true; error := None |}.
Proof.
  exact (@reply_defaults Q _ more_lib reply_home_only "tilt down 10"
           reply_home_only [("action", PStr "home")] eq_refl eq_refl
           (fun _ => eq_refl) (fun _ => eq_refl) (fun _ => eq_refl)).
Defined.

End ServiceMore.

(* ================================================================== *)
(** * The window and its widgets *)
(* ================================================================== *)

Module WindowFacts.
Import PyStr Controller Session LLM MainWindow Gui Runs Spec Terms
       ControllerFacts ControllerMore StringMore.
Local Open Scope string_scope.

Section Generic.
Context {num : Type} {arith : PyNum num} {lib : PyLib num} {gui : GuiLib num}.

(** ** What the slots leave alone *)

Lemma deliver_controller (w : Window num) (sig : Signal num) :
  gimbal_controller (deliver w sig) = gimbal_controller w
  /\ control_panel (deliver w sig) = control_panel w.
Proof. destruct sig; split; reflexivity. Qed.

Lemma fold_deliver_controller (out : list (Signal num)) (w : Window num) :
  gimbal_controller (fold_left deliver out w) = gimbal_controller w
  /\ control_panel (fold_left deliver out w) = control_panel w.
Proof.
  revert w. induction out as [|sig out IH]; intros w; cbn [fold_left].
  - split; reflexivity.
  - destruct (IH (deliver w sig)) as [-> ->]. apply deliver_controller.
Qed.

Lemma dispatch_controller {A} (m : M num A) (w : Window num) :
  gimbal_controller (dispatch m w) = exec m (gimbal_controller w)
  /\ control_panel (dispatch m w) = control_panel w.
Proof.
  unfold dispatch, exec. destruct (run m (gimbal_controller w)) as [self' out].
  destruct (fold_deliver_controller out
              (mkWindow self' (control_panel w) (status_panel w) (renderer w)))
    as [-> ->].
  split; reflexivity.
Qed.

Lemma dispatch_silent {A} (m : M num A) (w : Window num) :
  run m (gimbal_controller w) = (gimbal_controller w, []) ->
  dispatch m w = w.
Proof.
  intros E. unfold dispatch. rewrite E. destruct w; reflexivity.
Qed.

(** ** One step of a session for each event *)

Lemma execute_is_one_call (command : GimbalCommand num) (self : GimbalController num) :
  one_call self (exec (execute_gimbal_command command) self).
Proof.
  unfold execute_gimbal_command.
  destruct (eq_str (action command) "home"); [right; exists GoHome; reflexivity|].
  destruct (eq_str (action command) "stop"); [right; exists Stop; reflexivity|].
  destruct (eq_str (action command) "pan");
    [right; exists (SetPanTarget (value command) (LLM.speed command)); reflexivity|].
  destruct (eq_str (action command) "tilt");
    [right; exists (SetTiltTarget (value command) (LLM.speed command)); reflexivity|].
  left. reflexivity.
Qed.

Lemma process_llm_command_cases (available : bool) (backend : Ollama)
    (command : string) (w : Window num) :
  let result := process_command available backend command in
  let w' := process_llm_command available backend command w in
  (exists text,
      set_text (message result) = Return text
      /\ w' = (let w1 := set_control_panel
                           {| response_label := text;
                              response_color := if success result then green else red |} w in
               if success result
               then dispatch (execute_gimbal_command result) w1 else w1))
  \/ (exists e,
        set_text (message result) = Raise e
        /\ w' = set_control_panel
                  {| response_label := "Error: " ++ e; response_color := red |} w).
Proof.
  intros result w'. subst w'. unfold process_llm_command. fold result.
  unfold update_response.
  destruct (set_text (message result)) as [e|text] eqn:E.
  - right. exists e. split; reflexivity.
  - left. exists text. split; reflexivity.
Qed.

Lemma process_llm_command_one_call (available : bool) (backend : Ollama)
    (command : string) (w : Window num) :
  one_call (gimbal_controller w)
           (gimbal_controller (process_llm_command available backend command w)).
Proof.
  destruct (process_llm_command_cases available backend command w)
    as [(text & _ & ->)|(e & _ & ->)]; cbn zeta.
  - destruct (success (process_command available backend command)).
    + destruct (dispatch_controller
                  (execute_gimbal_command (process_command available backend command))
                  (set_control_panel
                     {| response_label := text; response_color := green |} w))
        as [-> _].
      apply execute_is_one_call.
    + left. reflexivity.
  - left. reflexivity.
Qed.

Lemma process_manual_command_one_call (command_data : ManualCommand num)
    (w : Window num) :
  one_call (gimbal_controller w)
           (gimbal_controller (process_manual_command command_data w)).
Proof.
  unfold process_manual_command.
  destruct (String.eqb (m_action command_data) "pan").
  - destruct (as_number (m_value command_data)) as [e|angle];
      cbn [exc_bind try_except set_control_panel gimbal_controller].
    + left. reflexivity.
    + right. exists (SetPanTarget angle (m_speed command_data)).
      apply dispatch_controller.
  - destruct (String.eqb (m_action command_data) "tilt").
    + destruct (as_number (m_value command_data)) as [e|angle];
        cbn [exc_bind try_except set_control_panel gimbal_controller].
      * left. reflexivity.
      * right. exists (SetTiltTarget angle (m_speed command_data)).
        apply dispatch_controller.
    + left. reflexivity.
Qed.

Lemma handle_one_call (ev : Event) (w : Window num) :
  one_call (gimbal_controller w) (gimbal_controller (handle ev w)).
Proof.
  destruct ev as [text available backend|b slider| | |]; cbn [handle].
  - unfold on_send. destruct (send_llm_command text (control_panel w)) as [panel [c|]].
    + apply (process_llm_command_one_call available backend c (set_control_panel panel w)).
    + left. reflexivity.
  - apply process_manual_command_one_call.
  - right. exists GoHome. unfold gimbal_home.
    cbn [set_control_panel gimbal_controller]. apply dispatch_controller.
  - right. exists Tick. apply dispatch_controller.
  - right. exists Stop. apply dispatch_controller.
Qed.

Lemma app_reachable_controller (w : Window num) :
  app_reachable w -> reachable (gimbal_controller w).
Proof.
  induction 1 as [|w ev Hw IH].
  - exact reach_init.
  - destruct (handle_one_call ev w) as [->|[op ->]].
    + exact IH.
    + exact (reach_call op IH).
Qed.

(** X17.  Whatever the user types and clicks, whatever the backend
    replies and the timer does, the controller of the window is in a
    state that a session of [pan_to], [tilt_to], [move_to_home], [stop]
    and [update] reaches: each event makes no call or one of them. *)
Theorem window_runs_a_session (w : Window num) :
  app_reachable w -> reachable (gimbal_controller w).
Proof. exact (app_reachable_controller w). Qed.

(** ** The display follows the controller *)

Lemma display_set_control_panel (panel : ControlPanel) (w : Window num) :
  display_ok w -> display_ok (set_control_panel panel w).
Proof. destruct w; exact (fun H => H). Qed.

Lemma display_dispatch_ret (w : Window num) : dispatch (ret tt) w = w.
Proof. apply dispatch_silent. reflexivity. Qed.

Lemma display_dispatch_call (op : Op) (w : Window num) :
  display_ok w -> display_ok (dispatch (call op) w).
Proof.
  destruct w as [c cp sp r]. unfold display_ok.
  cbn [gimbal_controller renderer status_panel].
  intros (Hp & Ht & Hl & Hc).
  destruct op as [a s|a s| | |]; cbn [call].
  - unfold dispatch. cbn. repeat split; auto.
  - unfold dispatch. cbn. repeat split; auto.
  - unfold dispatch. cbn. repeat split; auto.
  - unfold dispatch. cbn. repeat split; auto.
  - unfold dispatch. cbn [gimbal_controller].
    destruct (is_moving c) eqn:Hmov.
    + destruct (arrived c) eqn:Harr.
      * rewrite run_update_arrive by assumption. cbn. repeat split; auto.
      * rewrite run_update_advance by assumption. cbn. repeat split; auto.
    + rewrite run_update_idle by assumption. cbn. rewrite Hmov.
      repeat split; auto.
Qed.

Lemma display_execute (command : GimbalCommand num) (w : Window num) :
  display_ok w -> display_ok (dispatch (execute_gimbal_command command) w).
Proof.
  intros Hw. unfold execute_gimbal_command.
  destruct (eq_str (action command) "home"); [exact (display_dispatch_call GoHome w Hw)|].
  destruct (eq_str (action command) "stop"); [exact (display_dispatch_call Stop w Hw)|].
  destruct (eq_str (action command) "pan");
    [exact (display_dispatch_call
              (SetPanTarget (value command) (LLM.speed command)) w Hw)|].
  destruct (eq_str (action command) "tilt");
    [exact (display_dispatch_call
              (SetTiltTarget (value command) (LLM.speed command)) w Hw)|].
  rewrite display_dispatch_ret. exact Hw.
Qed.

Lemma display_handle (ev : Event) (w : Window num) :
  display_ok w -> display_ok (handle ev w).
Proof.
  intros Hw. destruct ev as [text available backend|b slider| | |]; cbn [handle].
  - unfold on_send.
    destruct (send_llm_command text (control_panel w)) as [panel [c|]].
    + destruct (process_llm_command_cases available backend c
                  (set_control_panel panel w))
        as [(t & _ & ->)|(e & _ & ->)]; cbn zeta.
      * destruct (success (process_command available backend c)).
        -- apply display_execute. do 2 apply display_set_control_panel. exact Hw.
        -- do 2 apply display_set_control_panel. exact Hw.
      * do 2 apply display_set_control_panel. exact Hw.
    + apply display_set_control_panel. exact Hw.
  - unfold process_manual_command.
    destruct (String.eqb (m_action (button_command b slider)) "pan").
    + destruct (as_number (m_value (button_command b slider))) as [e|angle];
        cbn [exc_bind try_except]; apply display_set_control_panel;
        [exact Hw|].
      exact (display_dispatch_call
               (SetPanTarget angle (m_speed (button_command b slider))) w Hw).
    + destruct (String.eqb (m_action (button_command b slider)) "tilt").
      * destruct (as_number (m_value (button_command b slider))) as [e|angle];
          cbn [exc_bind try_except]; apply display_set_control_panel;
          [exact Hw|].
        exact (display_dispatch_call
                 (SetTiltTarget angle (m_speed (button_command b slider))) w Hw).
      * cbn [exc_bind try_except]. apply display_set_control_panel. exact Hw.
  - unfold gimbal_home. apply display_set_control_panel.
    exact (display_dispatch_call GoHome w Hw).
  - exact (display_dispatch_call Tick w Hw).
  - exact (display_dispatch_call Stop w Hw).
Qed.

Lemma display_initial : display_ok initial_window.
Proof. unfold display_ok. cbn. repeat split; auto. Qed.

Lemma app_reachable_display (w : Window num) :
  app_reachable w -> display_ok w.
Proof.
  induction 1 as [|w ev Hw IH]; [exact display_initial|].
  apply display_handle. exact IH.
Qed.

(** X18.  In every window a run reaches, the status label reads Moving
    exactly when the controller is moving and Ready when it is not, and
    its colour is orange when moving and green (or the colour it started
    with) when idle: the label is never in the error colour. *)
Theorem status_label_follows_motion (w : Window num) :
  app_reachable w ->
  let c := gimbal_controller w in
  status_label (status_panel w)
  = "Status: " ++ (if is_moving c then "Moving" else "Ready")
  /\ (status_color (status_panel w) = Some (if is_moving c then orange else green)
      \/ (status_color (status_panel w) = None /\ is_moving c = false))
  /\ status_color (status_panel w) <> Some red.
Proof.
  intros Hw c. destruct (app_reachable_display w Hw) as (_ & _ & Hl & Hc).
  fold c in Hl, Hc. split; [exact Hl|]. split; [exact Hc|].
  destruct Hc as [->|[-> _]]; [destruct (is_moving c)|]; discriminate.
Qed.

(** X19.  In every window a run reaches, the renderer draws the pan and
    the tilt the controller has now.  The speed label has no such
    guarantee: after a click on a pan button with the slider at 3, the
    controller has speed 3 and the label still reads 5. *)
Theorem renderer_follows_position :
  (forall w : Window num,
     app_reachable w ->
     pan_angle (renderer w) = pan (gimbal_controller w)
     /\ tilt_angle (renderer w) = tilt (gimbal_controller w))
  /\ (let w := handle (ButtonClicked PanLeft 3) initial_window in
      app_reachable w
      /\ Controller.speed (gimbal_controller w) = 3%Z
      /\ speed_label (status_panel w) = "Speed: 5").
Proof.
  split.
  - intros w Hw. destruct (app_reachable_display w Hw) as (Hp & Ht & _). auto.
  - cbv zeta. split; [apply app_event; apply app_init|].
    split; reflexivity.
Qed.

(** ** Commands that are not executed *)

(** X20.  A command that [process_command] marks as failed never reaches
    the controller: [process_llm_command] leaves the controller, the
    status panel and the renderer as they were, and the response label
    is in the error colour. *)
Theorem failed_command_never_moves (available : bool) (backend : Ollama)
    (command : string) (w : Window num) :
  success (process_command available backend command) = false ->
  let w' := process_llm_command available backend command w in
  gimbal_controller w' = gimbal_controller w
  /\ status_panel w' = status_panel w
  /\ renderer w' = renderer w
  /\ response_color (control_panel w') = red.
Proof.
  intros Hfail w'. subst w'.
  destruct (process_llm_command_cases available backend command w)
    as [(t & _ & ->)|(e & _ & ->)]; cbn zeta.
  - rewrite Hfail. repeat split.
  - repeat split.
Qed.

(** X21.  [process_manual_command] on an action that is neither pan nor
    tilt calls nothing on the controller and still reports a success, in
    green.  On pan or tilt with a value that is no number it calls
    nothing either, and shows the error in red. *)
Theorem manual_command_edges (command_data : ManualCommand num) (w : Window num) :
  let w' := process_manual_command command_data w in
  (m_action command_data <> "pan" -> m_action command_data <> "tilt" ->
   w' = set_control_panel
          {| response_label :=
               "Manual " ++ m_action command_data ++ ": "
               ++ str_of (m_value command_data) ++ degree_sign;
             response_color := green |} w)
  /\ (forall e,
        m_action command_data = "pan" \/ m_action command_data = "tilt" ->
        as_number (m_value command_data) = Raise e ->
        w' = set_control_panel
               {| response_label := "Error: " ++ e; response_color := red |} w).
Proof.
  intros w'. subst w'. unfold process_manual_command. split.
  - intros Hpan Htilt.
    apply String.eqb_neq in Hpan. apply String.eqb_neq in Htilt.
    rewrite Hpan, Htilt. reflexivity.
  - intros e Hact He. rewrite He.
    destruct Hact as [-> | ->]; reflexivity.
Qed.

(** X22.  The Send button with a text of white space only (or none)
    emits no command and leaves the panel as it is.  With any other text
    it shows Processing... and emits the text trimmed, which is not empty
    and which trimming leaves as it is. *)
Theorem send_llm_command_trims (text : string) (panel : ControlPanel) :
  (all_space text = true -> send_llm_command text panel = (panel, None))
  /\ (all_space text = false ->
      send_llm_command text panel
      = ({| response_label := "Processing...";
            response_color := response_color panel |}, Some (strip text))
      /\ strip text <> EmptyString
      /\ strip (strip text) = strip text).
Proof.
  unfold send_llm_command. split.
  - intros Hsp. apply strip_empty_iff in Hsp. rewrite Hsp. reflexivity.
  - intros Hsp.
    assert (Hne : strip text <> EmptyString).
    { intros E. apply strip_empty_iff in E. congruence. }
    split; [|split; [exact Hne | apply strip_idem]].
    destruct (strip text); [contradiction Hne; reflexivity | reflexivity].
Qed.

End Generic.

Section Rational.
Context {lib : PyLib Q} {gui : GuiLib Q}.
Import RationalFacts MotionMore.
Local Open Scope Q_scope.

Lemma run_pan_to (a : Q) (s : Z) (self : GimbalController Q) :
  run (pan_to a s) self = (exec (pan_to a s) self, [status_changed "Moving"]).
Proof. reflexivity. Qed.

Lemma run_tilt_to (a : Q) (s : Z) (self : GimbalController Q) :
  run (tilt_to a s) self = (exec (tilt_to a s) self, [status_changed "Moving"]).
Proof. reflexivity. Qed.

Lemma clamp_Z_fixed (s : Z) : (1 <= s <= 10)%Z -> clamp s 1%Z 10%Z = s.
Proof.
  intros Hs. unfold clamp. cbn [py_lt Z_PyOrd].
  destruct (Z.ltb_spec s 1); [lia|]. destruct (Z.ltb_spec 10 s); [lia|]. reflexivity.
Qed.

(** X23.  A command that [process_command] marks as a success, with a
    string as message, is executed by [process_llm_command]: the label
    shows the message in green, and the controller moves towards the
    clamped value on the axis of a pan or tilt command, at the speed of
    the command; a home command sets both targets to 0 and the speed to
    5, whatever speed the command has; a stop command leaves the
    controller idle where it is. *)
Theorem successful_command_is_executed (available : bool) (backend : Ollama)
    (command msg : string) (w : Window Q) :
  success (process_command available backend command) = true ->
  message (process_command available backend command) = PStr msg ->
  let result := process_command available backend command in
  let w' := process_llm_command available backend command w in
  let c := gimbal_controller w in
  let c' := gimbal_controller w' in
  control_panel w' = {| response_label := msg; response_color := green |}
  /\ pan c' = pan c /\ tilt c' = tilt c
  /\ (action result = PStr "pan" ->
      target_pan c' == clamp (value result) (-180) 180
      /\ target_tilt c' = target_tilt c
      /\ Controller.speed c' = LLM.speed result /\ is_moving c' = true)
  /\ (action result = PStr "tilt" ->
      target_tilt c' == clamp (value result) (-90) 90
      /\ target_pan c' = target_pan c
      /\ Controller.speed c' = LLM.speed result /\ is_moving c' = true)
  /\ (action result = PStr "home" ->
      target_pan c' = 0 /\ target_tilt c' = 0
      /\ Controller.speed c' = 5%Z /\ is_moving c' = true)
  /\ (action result = PStr "stop" ->
      target_pan c' = pan c /\ target_tilt c' = tilt c /\ is_moving c' = false).
Proof.
  intros Hok Hmsg result w' c c'. subst w' c c'. fold result in Hok, Hmsg.
  pose proof (ServiceMore.command_speed_bounds available backend command) as Hsp.
  fold result in Hsp.
  pose proof (process_llm_command_cases available backend command w) as Hcases.
  cbv zeta in Hcases. fold result in Hcases.
  destruct Hcases as [(t & Ht & ->)|(e & He & _)].
  2: { rewrite Hmsg in He. discriminate. }
  rewrite Hmsg in Ht. injection Ht as <-. rewrite Hok.
  set (w1 := set_control_panel
               {| response_label := msg; response_color := green |} w).
  destruct (dispatch_controller (execute_gimbal_command result) w1) as [-> ->].
  change (gimbal_controller w1) with (gimbal_controller w).
  split; [reflexivity|].
  unfold execute_gimbal_command.
  destruct (action result) as [| | | |a| |]; cbn [eq_str];
    try (repeat split; intros; discriminate).
  destruct (String.eqb_spec a "home") as [->|Hh].
  { rewrite exec_move_to_home. cbn.
    repeat split; intros; first [discriminate | reflexivity]. }
  destruct (String.eqb_spec a "stop") as [->|Hs].
  { rewrite exec_stop. cbn.
    repeat split; intros; first [discriminate | reflexivity]. }
  destruct (String.eqb_spec a "pan") as [->|Hp].
  { rewrite exec_pan_to. cbn [pan tilt target_pan target_tilt Controller.speed is_moving].
    rewrite py_clamp_Z, clamp_Z_fixed by lia.
    repeat split; intros; try discriminate; try reflexivity.
    apply (@py_clamp_Q (-180) 180). by_evaluation. }
  destruct (String.eqb_spec a "tilt") as [->|Htl].
  { rewrite exec_tilt_to. cbn [pan tilt target_pan target_tilt Controller.speed is_moving].
    rewrite py_clamp_Z, clamp_Z_fixed by lia.
    repeat split; intros; try discriminate; try reflexivity.
    apply (@py_clamp_Q (-90) 90). by_evaluation. }
  repeat split; intros; congruence.
Qed.

(** X24.  A click on one of the four buttons, with the slider anywhere
    from 1 to 10, sets the target of that axis to the angle of the button
    (45 degrees of pan, 30 of tilt, unclamped) and the speed to the
    slider, starts the motion, and leaves the position and the other
    target alone; the response is shown in green. *)
Theorem button_sets_target (b : Button) (slider : Z) (w : Window Q) :
  (1 <= slider <= 10)%Z ->
  let w' := handle (ButtonClicked b slider) w in
  let c := gimbal_controller w in
  let c' := gimbal_controller w' in
  Controller.speed c' = slider /\ is_moving c' = true
  /\ pan c' = pan c /\ tilt c' = tilt c
  /\ response_color (control_panel w') = green
  /\ match b with
     | PanLeft => target_pan c' = -45 /\ target_tilt c' = target_tilt c
     | PanRight => target_pan c' = 45 /\ target_tilt c' = target_tilt c
     | TiltUp => target_tilt c' = 30 /\ target_pan c' = target_pan c
     | TiltDown => target_tilt c' = -30 /\ target_pan c' = target_pan c
     end.
Proof.
  intros Hs w' c c'. subst w' c c'. cbn [handle].
  destruct b; unfold process_manual_command;
    cbn [button_command manual_command m_action m_value m_speed String.eqb
         Ascii.eqb Bool.eqb andb as_number exc_bind try_except
         set_control_panel gimbal_controller control_panel update_response_str
         response_color].
  all: match goal with
       | |- context [dispatch ?m ?w0] =>
           destruct (dispatch_controller m w0) as [-> _]
       end.
  all: first [rewrite exec_pan_to | rewrite exec_tilt_to].
  all: cbn [pan tilt target_pan target_tilt Controller.speed is_moving].
  all: rewrite py_clamp_Z, clamp_Z_fixed by lia.
  all: repeat split; reflexivity.
Qed.

Lemma frames_controller (n : nat) : forall w : Window Q,
  gimbal_controller (frames n w) = exec (ticks n) (gimbal_controller w).
Proof.
  induction n as [|n IH]; intros w; cbn [frames]; [reflexivity|].
  rewrite IH, exec_ticks_S. cbn [handle]. unfold window_update_display.
  destruct (dispatch_controller update_display w) as [-> _]. reflexivity.
Qed.

Lemma frames_reachable (n : nat) : forall w : Window Q,
  app_reachable w -> app_reachable (frames n w).
Proof.
  induction n as [|n IH]; intros w Hw; cbn [frames]; [exact Hw|].
  apply IH. apply app_event. exact Hw.
Qed.

(** X25.  From every window a run reaches, a click on Home followed by
    816 firings of the timer (some 13 seconds) leaves the controller idle
    at pan 0 and tilt 0, the renderer drawing 0 and 0, and the status
    label reading Ready. *)
Theorem home_button_brings_display_home (w : Window Q) :
  app_reachable w ->
  let w' := frames 816 (handle HomeClicked w) in
  is_moving (gimbal_controller w') = false
  /\ pan (gimbal_controller w') = 0 /\ tilt (gimbal_controller w') = 0
  /\ pan_angle (renderer w') = 0 /\ tilt_angle (renderer w') = 0
  /\ status_label (status_panel w') = "Status: Ready".
Proof.
  intros Hw w'.
  assert (Hw' : app_reachable w').
  { apply frames_reachable. apply app_event. exact Hw. }
  destruct (app_reachable_display w' Hw') as (Hp & Ht & Hl & _).
  assert (Hc : gimbal_controller w'
               = exec (ticks 816) (exec move_to_home (gimbal_controller w))).
  { unfold w'. rewrite frames_controller. cbn [handle]. unfold gimbal_home.
    cbn [set_control_panel gimbal_controller].
    destruct (dispatch_controller move_to_home w) as [-> _]. reflexivity. }
  destruct (motion_ends (exec move_to_home (gimbal_controller w))
              (reach_call GoHome (app_reachable_controller w Hw)))
    as (Hm & Hpan & Htilt).
  rewrite <- Hc in Hm, Hpan, Htilt.
  rewrite exec_move_to_home in Hpan, Htilt.
  rewrite Hl, Hp, Ht, Hm, Hpan, Htilt. repeat split.
Qed.

(** X26.  In every window a run reaches, the pan and tilt of the
    controller, and those the renderer draws, are within the limits:
    pan in [-180, 180], tilt in [-90, 90]. *)
Theorem display_within_limits (w : Window Q) :
  app_reachable w ->
  (-180 <= pan (gimbal_controller w) <= 180)
  /\ (-90 <= tilt (gimbal_controller w) <= 90)
  /\ (-180 <= pan_angle (renderer w) <= 180)
  /\ (-90 <= tilt_angle (renderer w) <= 90).
Proof.
  intros Hw.
  destruct (app_reachable_display w Hw) as (-> & -> & _).
  destruct (reachable_invariant (app_reachable_controller w Hw)) as ((Hp & Ht) & _).
  auto.
Qed.

End Rational.
End WindowFacts.

(* ================================================================== *)
(** * Closing the window *)
(* ================================================================== *)

Module CloseFacts.
Import Controller Session Gui Runs ControllerFacts WindowFacts.
Local Open Scope string_scope.

Section Generic.
Context {num : Type} {arith : PyNum num} {lib : PyLib num} {gui : GuiLib num}.

Lemma frames_idle (n : nat) (w : Window num) :
  is_moving (gimbal_controller w) = false -> frames n w = w.
Proof.
  intros Hidle. induction n as [|n IH]; [reflexivity|].
  cbn [frames handle]. unfold window_update_display, MainWindow.update_display.
  rewrite (dispatch_silent update w (run_update_idle (gimbal_controller w) Hidle)).
  exact IH.
Qed.

(** X29.  Closing the window, in whatever state it is, stops the gimbal
    where it stands: the controller is idle with its targets at its
    position, the status panel reads Ready in green, and the renderer,
    the response label and the speed are as before, since [cleanup] emits
    no position.  After that the timer changes nothing, were it to fire
    again. *)
Theorem close_stops_where_it_stands (n : nat) (w : Window num) :
  let w' := handle WindowClosed w in
  let c := gimbal_controller w in
  let c' := gimbal_controller w' in
  (is_moving c' = false /\ pan c' = pan c /\ tilt c' = tilt c
   /\ target_pan c' = pan c /\ target_tilt c' = tilt c
   /\ Controller.speed c' = Controller.speed c)
  /\ (status_label (status_panel w') = "Status: Ready"
      /\ status_color (status_panel w') = Some green
      /\ pan_label (status_panel w') = pan_label (status_panel w)
      /\ tilt_label (status_panel w') = tilt_label (status_panel w))
  /\ renderer w' = renderer w
  /\ control_panel w' = control_panel w
  /\ frames n w' = w'.
Proof.
  intros w' c c'. subst w' c c'.
  assert (E : handle WindowClosed w
              = on_status_changed "Ready"
                  (mkWindow (exec stop (gimbal_controller w)) (control_panel w)
                            (status_panel w) (renderer w))).
  { cbn [handle]. unfold closeEvent, cleanup, dispatch.
    rewrite (run_stop (gimbal_controller w)). reflexivity. }
  rewrite E. split; [|split; [|split; [|split]]].
  - cbn. repeat split.
  - cbn. repeat split.
  - reflexivity.
  - reflexivity.
  - apply frames_idle. reflexivity.
Qed.

End Generic.
End CloseFacts.

(* ================================================================== *)
(** * The object of a reply *)
(* ================================================================== *)

Module ReplyMore.
Import PyStr LLM Spec Samples MoreSamples StringFacts.
Local Open Scope string_scope.

Lemma no_open_head (c : ascii) (s : string) :
  contains "{" (String c s) = false ->
  Ascii.eqb c open_brace = false /\ contains "{" s = false.
Proof.
  cbn [contains starts_with]. rewrite Bool.andb_true_r.
  intros H. apply Bool.orb_false_iff in H. destruct H as [Hc Hs].
  split; [|exact Hs]. rewrite Ascii.eqb_sym. exact Hc.
Qed.

Lemma no_close_head (c : ascii) (s : string) :
  contains "}" (String c s) = false ->
  Ascii.eqb c close_brace = false /\ contains "}" s = false.
Proof.
  cbn [contains starts_with]. rewrite Bool.andb_true_r.
  intros H. apply Bool.orb_false_iff in H. destruct H as [Hc Hs].
  split; [|exact Hs]. rewrite Ascii.eqb_sym. exact Hc.
Qed.

Lemma until_close_found (body post : string) :
  contains "}" body = false ->
  until_close (body ++ String "}" post) = Some body.
Proof.
  induction body as [|c body IH]; intros Hno.
  - reflexivity.
  - destruct (no_close_head c body Hno) as [Hc Hb].
    cbn [append until_close]. rewrite Hc, (IH Hb). reflexivity.
Qed.

Lemma search_braces_found (pre body post : string) :
  contains "{" pre = false ->
  body <> EmptyString ->
  contains "}" body = false ->
  search_braces (pre ++ "{" ++ body ++ "}" ++ post) = Some ("{" ++ body ++ "}").
Proof.
  intros Hpre Hne Hbody.
  change (pre ++ "{" ++ body ++ "}" ++ post)
    with (pre ++ String "{" (body ++ String "}" post)).
  induction pre as [|c pre IH].
  - cbn [append search_braces]. change (Ascii.eqb "{" open_brace) with true. cbn iota.
    rewrite (until_close_found body post Hbody).
    destruct body as [|b body]; [contradiction Hne; reflexivity|]. reflexivity.
  - destruct (no_open_head c pre Hpre) as [Hc Hp].
    cbn [append search_braces]. rewrite Hc. exact (IH Hp).
Qed.

Section Replies.
Context {num : Type} {arith : PyNum num} {lib : PyLib num}.

(** X30.  What a reply says around its object is ignored.  When the text
    before the object has no opening brace, and the object is an opening
    brace, one character or more that is no closing brace, and a closing
    brace, the search finds exactly the object, and the reply gives the
    command the object alone gives, whatever follows it.  An opening
    brace inside the object is allowed: an object that nests another one
    is cut at the first closing brace. *)
Theorem prose_around_object_is_ignored (pre body post text : string) :
  contains "{" pre = false ->
  body <> EmptyString ->
  contains "}" body = false ->
  search_braces (pre ++ "{" ++ body ++ "}" ++ post) = Some ("{" ++ body ++ "}")
  /\ _parse_llm_response (pre ++ "{" ++ body ++ "}" ++ post) text
     = _parse_llm_response ("{" ++ body ++ "}") text.
Proof.
  intros Hpre Hne Hbody.
  pose proof (search_braces_found pre body post Hpre Hne Hbody) as E1.
  pose proof (search_braces_found EmptyString body EmptyString eq_refl Hne Hbody) as E2.
  split; [exact E1|].
  change (EmptyString ++ "{" ++ body ++ "}" ++ EmptyString)
    with ("{" ++ body ++ "}") in E2.
  unfold _parse_llm_response. rewrite E1, E2. reflexivity.
Qed.

End Replies.

(** The pan reply of the samples between two sentences: the command is
    the one of the reply alone, with the speed 12 brought down to 10. *)
Lemma prose_around_object_is_ignored_witness :
  let body := String.substring 1 (String.length reply_pan - 2) reply_pan in
  let response := "Sure, turning. " ++ "{" ++ body ++ "}" ++ " Anything else?" in
  "{" ++ body ++ "}" = reply_pan
  /\ exists c,
       _parse_llm_response (lib := more_lib) response "turn around" = Return c
       /\ LLM.speed c = 10%Z /\ LLM.action c = PStr "pan".
Proof.
  intros body response. split; [reflexivity|].
  destruct (@prose_around_object_is_ignored Q _ more_lib "Sure, turning. " body
              " Anything else?" "turn around" eq_refl
              ltac:(discriminate) eq_refl) as [_ E].
  fold response in E. rewrite E. eexists. split; [reflexivity|].
  split; reflexivity.
Defined.

End ReplyMore.

(* ================================================================== *)
(** * The configuration *)
(* ================================================================== *)

Module ConfigFacts.
Import Controller Session Spec Config RationalFacts.
Local Open Scope string_scope.

Section Generic.
Context {num : Type} {arith : PyNum num}.

Lemma new_keeps_gimbal_fields (env : Environ) :
  gimbal_pan_limit (Config.new env) = gimbal_pan_limit (defaults (num := num))
  /\ gimbal_tilt_limit (Config.new env) = gimbal_tilt_limit (defaults (num := num))
  /\ gimbal_default_speed (Config.new env) = gimbal_default_speed (defaults (num := num)).
Proof.
  unfold Config.new, __post_init__.
  destruct (getenv_truthy env "LLM_PROVIDER"); repeat split.
Qed.

(** X27.  [__post_init__] reads three variables of the environment and
    changes three fields.  The OpenAI key becomes the variable, or [None]
    when it is not set, whatever the field held.  The Ollama URL becomes
    the variable whenever it is set, the empty string included.  The
    provider becomes the variable only when it is set and not empty.
    The other eleven fields, the limits and the default speed of the
    gimbal among them, are left as they are. *)
Theorem post_init_reads_environment (env : Environ) (self : Config num) :
  let c := __post_init__ env self in
  openai_api_key c = env "OPENAI_API_KEY"
  /\ ollama_url c = match env "OLLAMA_URL" with
                    | Some v => v
                    | None => ollama_url self
                    end
  /\ llm_provider c = match env "LLM_PROVIDER" with
                      | Some (String a v) => String a v
                      | _ => llm_provider self
                      end
  /\ (ollama_model c = ollama_model self
      /\ ollama_enabled c = ollama_enabled self
      /\ openai_model c = openai_model self
      /\ gimbal_pan_limit c = gimbal_pan_limit self
      /\ gimbal_tilt_limit c = gimbal_tilt_limit self
      /\ gimbal_default_speed c = gimbal_default_speed self
      /\ graphics_fps_target c = graphics_fps_target self
      /\ graphics_vsync c = graphics_vsync self
      /\ window_width c = window_width self
      /\ window_height c = window_height self
      /\ window_theme c = window_theme self).
Proof.
  intros c. subst c. unfold __post_init__, getenv_truthy, getenv_default.
  destruct (env "LLM_PROVIDER") as [[|a v]|]; cbn; repeat split.
Qed.

End Generic.

(** X28.  Whatever the environment, the limits of the configuration that
    [main.py] builds are the limits the controller keeps: in every state
    of a session, pan is within the pan limit of the configuration and
    tilt within its tilt limit, and the speed the controller starts with
    is the default speed of the configuration. *)
Theorem controller_keeps_config_limits (env : Environ)
    (self : GimbalController Q) :
  reachable self ->
  let cfg := Config.new (num := Q) env in
  (- gimbal_pan_limit cfg <= pan self <= gimbal_pan_limit cfg)%Q
  /\ (- gimbal_tilt_limit cfg <= tilt self <= gimbal_tilt_limit cfg)%Q
  /\ speed (init (num := Q)) = gimbal_default_speed cfg.
Proof.
  intros Hreach cfg.
  destruct (new_keeps_gimbal_fields (num := Q) env) as (Hp & Ht & Hs).
  fold cfg in Hp, Ht, Hs. rewrite Hp, Ht, Hs.
  destruct (reachable_invariant Hreach) as ((Hpan & Htilt) & _).
  cbn [defaults gimbal_pan_limit gimbal_tilt_limit gimbal_default_speed].
  split; [exact Hpan|]. split; [exact Htilt|]. reflexivity.
Qed.

(** An environment that sets the URL and the provider to the empty
    string. *)
Lemma controller_keeps_config_limits_witness :
  let env := fun name : string =>
    if String.eqb name "OLLAMA_URL" then Some EmptyString
    else if String.eqb name "LLM_PROVIDER" then Some EmptyString
    else None in
  let cfg := Config.new (num := Q) env in
  let self := exec (pan_to 500 5) init in
  ollama_url cfg = EmptyString /\ llm_provider cfg = "ollama"
  /\ (- gimbal_pan_limit cfg <= pan self <= gimbal_pan_limit cfg)%Q.
Proof.
  intros env cfg self. split; [reflexivity|]. split; [reflexivity|].
  apply (controller_keeps_config_limits env self
           (reach_call (SetPanTarget 500%Q 5) reach_init)).
Defined.

End ConfigFacts.

(* ================================================================== *)
(** * Runs of the window on the sample libraries *)
(* ================================================================== *)

Module WindowRuns.
Import PyStr Controller Session LLM MainWindow Gui Runs Spec Terms
       Samples MoreSamples WindowSamples WindowFacts.
Local Open Scope string_scope.

Lemma sample_window_reachable :
  app_reachable (lib := more_lib) (gui := sample_gui) sample_window.
Proof. unfold sample_window. repeat apply app_event. apply app_init. Qed.

Lemma window_runs_a_session_witness :
  reachable (gimbal_controller sample_window).
Proof.
  exact (@window_runs_a_session Q _ more_lib sample_gui sample_window
           sample_window_reachable).
Defined.

Lemma status_label_follows_motion_witness :
  status_label (status_panel sample_window) = "Status: Moving"
  /\ status_color (status_panel sample_window) <> Some red.
Proof.
  destruct (@status_label_follows_motion Q _ more_lib sample_gui sample_window
              sample_window_reachable) as (Hl & _ & Hr).
  split; [exact Hl | exact Hr].
Defined.

Lemma display_within_limits_witness :
  (-180 <= pan_angle (renderer sample_window) <= 180)%Q.
Proof.
  destruct (@display_within_limits more_lib sample_gui sample_window
              sample_window_reachable) as (_ & _ & H & _).
  exact H.
Defined.

Lemma home_button_brings_display_home_witness :
  let w' := frames (lib := more_lib) (gui := sample_gui) 816
              (handle (lib := more_lib) (gui := sample_gui) HomeClicked sample_window) in
  pan_angle (renderer w') = 0%Q
  /\ status_label (status_panel w') = "Status: Ready".
Proof.
  destruct (@home_button_brings_display_home more_lib sample_gui sample_window
              sample_window_reachable) as (_ & _ & _ & Hp & _ & Hl).
  split; [exact Hp | exact Hl].
Defined.

(** A text that no parser understands. *)
Lemma failed_command_never_moves_witness :
  let w' := process_llm_command (lib := more_lib) (gui := sample_gui)
              false (ChatFails EmptyString) "xyzzy" sample_window in
  gimbal_controller w' = gimbal_controller sample_window
  /\ response_color (control_panel w') = red.
Proof.
  destruct (@failed_command_never_moves Q _ more_lib sample_gui
              false (ChatFails EmptyString) "xyzzy" sample_window eq_refl)
    as (Hc & _ & _ & Hr).
  split; [exact Hc | exact Hr].
Defined.

(** The reply [{"action": "pan", "value": 250.5, "speed": 12, "message":
    "ok"}]: the target is clamped to 180 and the speed to 10. *)
Lemma successful_command_is_executed_witness :
  let w' := process_llm_command (lib := more_lib) (gui := sample_gui)
              true (ChatReplies reply_pan) "turn around" sample_window in
  (target_pan (gimbal_controller w') == 180)%Q
  /\ Controller.speed (gimbal_controller w') = 10%Z
  /\ response_label (control_panel w') = "ok".
Proof.
  destruct (@successful_command_is_executed more_lib sample_gui
              true (ChatReplies reply_pan) "turn around" "ok" sample_window
              eq_refl eq_refl) as (Hl & _ & _ & Hpan & _).
  destruct (Hpan eq_refl) as (Ht & _ & Hs & _).
  split; [rewrite Ht; reflexivity|]. split; [rewrite Hs; reflexivity|].
  rewrite Hl. reflexivity.
Defined.

Lemma button_sets_target_witness :
  let w' := handle (lib := more_lib) (gui := sample_gui)
              (ButtonClicked TiltDown 7) sample_window in
  target_tilt (gimbal_controller w') = (-30)%Q
  /\ Controller.speed (gimbal_controller w') = 7%Z.
Proof.
  destruct (@button_sets_target more_lib sample_gui TiltDown 7 sample_window
              ltac:(lia)) as (Hs & _ & _ & _ & _ & Ht & _).
  split; [exact Ht | exact Hs].
Defined.

End WindowRuns.
